(** * Evaluation metrics of the cnnClassifier package

    A shallow embedding of [cnnClassifier/components/evaluation.py] and of
    [save_json] from [cnnClassifier/utils/common.py].

    The Python code delegates the numeric work to scikit-learn and NumPy.
    Their functions are modelled in the modules [np] and [sklearn] below,
    following the documented behaviour of the calls that the source makes
    (the arguments that the source leaves at their defaults are fixed to
    those defaults).  Floating-point results are idealised as rationals;
    the one non-finite value that the calls can produce, the NaN that
    [np.mean] returns for an empty array, is kept as a separate
    constructor. *)

From Stdlib Require Import String List ZArith QArith Qabs Qround Lia Lqa Bool Arith.
Import ListNotations.
Close Scope Q_scope.
Local Open Scope nat_scope.

(** ** Python values and exceptions *)

Inductive exn : Type :=
| ValueError
| ZeroDivisionError
| AttributeError
| FileNotFoundError.

Inductive result (A : Type) : Type :=
| Ok (a : A)
| Raise (e : exn).
Arguments Ok {A} a.
Arguments Raise {A} e.

(** A Python [float]: a finite value or NaN. *)
Inductive pyfloat : Type :=
| Fin (q : Q)
| NaN.

Definition is_finite (x : pyfloat) : Prop :=
  match x with Fin _ => True | NaN => False end.

(** [float(n)] / array promotion of a count. *)
Definition Qnat (n : nat) : Q := inject_Z (Z.of_nat n).

(** A [dict] with string keys, in insertion order.  Assigning to a key that
    is present replaces its value in place, as in Python. *)
Definition dict (V : Type) : Type := list (string * V).

Fixpoint dict_set {V : Type} (k : string) (v : V) (d : dict V) : dict V :=
  match d with
  | [] => [(k, v)]
  | (k', v') :: d' =>
      if String.eqb k k' then (k, v) :: d' else (k', v') :: dict_set k v d'
  end.

Definition keys {V : Type} (d : dict V) : list string := map fst d.

(** [enumerate(l)]. *)
Definition enumerate {A : Type} (l : list A) : list (nat * A) :=
  combine (seq 0 (length l)) l.

(** ** NumPy *)

Module np.

Definition sum (a : list Q) : Q := fold_right Qplus (0%Q) a.

(** [np.multiply(a, wgt)] on arrays of one shape. *)
Fixpoint multiply (a : list Q) (wgt : list nat) : list Q :=
  match a, wgt with
  | x :: a', w :: wgt' => (x * Qnat w)%Q :: multiply a' wgt'
  | _, _ => []
  end.

(** [np.mean(a)]: the arithmetic mean; NaN (with a RuntimeWarning) for an
    empty array. *)
Definition mean (a : list Q) : pyfloat :=
  match a with
  | [] => NaN
  | _ :: _ => Fin (sum a / Qnat (length a))%Q
  end.

(** [np.average(a, weights=w)]: raises ZeroDivisionError ("Weights sum to
    zero, can't be normalized") when the weights sum to zero, otherwise
    [np.multiply(a, w).sum() / w.sum()]. *)
Definition average (a : list Q) (weights : list nat) : result pyfloat :=
  let scl := list_sum weights in
  if scl =? 0 then Raise ZeroDivisionError
  else Ok (Fin (sum (multiply a weights) / Qnat scl)%Q).

End np.

(** ** scikit-learn *)

Module sklearn.

(** [unique_labels(y_true, y_pred)]: the labels that occur in either
    sequence, sorted, without repetition. *)
Definition unique_labels (y_true y_pred : list nat) : list nat :=
  let ys := y_true ++ y_pred in
  filter (fun c => existsb (Nat.eqb c) ys) (seq 0 (S (list_max ys))).

(** Number of samples with true label [i] and predicted label [j]. *)
Definition count_pairs (i j : nat) (samples : list (nat * nat)) : nat :=
  length (filter (fun s => (fst s =? i) && (snd s =? j)) samples).

(** [confusion_matrix(y_true, y_pred)] with [labels=None]: the rows and
    columns are indexed by [unique_labels(y_true, y_pred)].  Sequences of
    different lengths are rejected by [check_consistent_length]. *)
Definition confusion_matrix (y_true y_pred : list nat)
  : result (list (list nat)) :=
  if length y_true =? length y_pred then
    let labels := unique_labels y_true y_pred in
    let samples := combine y_true y_pred in
    Ok (map (fun i => map (fun j => count_pairs i j samples) labels) labels)
  else Raise ValueError.

(** [_prf_divide] with the default [zero_division="warn"]: a quotient
    whose denominator is zero is replaced by 0.0. *)
Definition _prf_divide (numerator denominator : nat) : Q :=
  if denominator =? 0 then 0%Q
  else (Qnat numerator / Qnat denominator)%Q.

(** The F-measure with [beta = 1.0]: [2 * p * r / (p + r)], and 0.0 when
    [p + r] is zero. *)
Definition f_score (p r : Q) : Q :=
  let denom := (p + r)%Q in
  if Qeq_bool denom 0 then 0%Q else (2 * p * r / denom)%Q.

(** The per-label counts that [multilabel_confusion_matrix] derives from
    the aligned samples: true positives, predicted positives and actual
    positives. *)
Definition tp_sum (y_true y_pred : list nat) (c : nat) : nat :=
  count_pairs c c (combine y_true y_pred).

Definition pred_sum (y_pred : list nat) (c : nat) : nat :=
  count_occ Nat.eq_dec y_pred c.

Definition true_sum (y_true : list nat) (c : nat) : nat :=
  count_occ Nat.eq_dec y_true c.

(** [precision_recall_fscore_support(y_true, y_pred, average=None,
    labels=labels)]: one entry per element of [labels], in that order;
    labels that occur in the data but not in [labels] are ignored. *)
Definition precision_recall_fscore_support
    (y_true y_pred : list nat) (labels : list nat)
  : result (list Q * list Q * list Q * list nat) :=
  if length y_true =? length y_pred then
    let precision :=
      fun c => _prf_divide (tp_sum y_true y_pred c) (pred_sum y_pred c) in
    let recall :=
      fun c => _prf_divide (tp_sum y_true y_pred c) (true_sum y_true c) in
    Ok (map precision labels,
        map recall labels,
        map (fun c => f_score (precision c) (recall c)) labels,
        map (true_sum y_true) labels)
  else Raise ValueError.

End sklearn.

(** ** Keras image pipeline *)

Module keras.

(** [ImageDataGenerator(rescale=..., validation_split=...)]. *)
Record ImageDataGenerator : Type := {
  rescale : Q;
  validation_split : Q
}.

(** The iterator returned by [flow_from_directory]: the selected files in
    order, their class indices ([classes]), and the mapping from class name
    to index ([class_indices]). *)
Record DirectoryIterator : Type := {
  filepaths : list string;
  classes : list nat;
  class_indices : dict nat;
  target_size : list nat;
  batch_size : nat;
  interpolation : string;
  shuffle : bool
}.

(** The files of one class directory that fall in the validation subset:
    [all_files[0 : int(validation_split * num_files)]]. *)
Definition validation_files (split : Q) (all_files : list string)
  : list string :=
  firstn (Z.to_nat (Qfloor (split * Qnat (length all_files)))) all_files.

(** [flow_from_directory(directory, subset="validation", shuffle=False,
    target_size=..., batch_size=..., interpolation=...)].  [tree] is the
    content of [directory]: its class subdirectories in sorted order, each
    with its image files in sorted order. *)
Definition flow_from_directory (datagen : ImageDataGenerator)
    (tree : list (string * list string))
    (target_size : list nat) (batch_size : nat) (interpolation : string)
  : DirectoryIterator :=
  let selected :=
    map (fun '(idx, (name, files)) =>
           (idx, validation_files (validation_split datagen) files))
        (enumerate tree) in
  {| filepaths := flat_map snd selected;
     classes := flat_map (fun '(idx, files) => repeat idx (length files))
                         selected;
     class_indices := combine (map fst tree) (seq 0 (length tree));
     target_size := target_size;
     batch_size := batch_size;
     interpolation := interpolation;
     shuffle := false |}.

End keras.

(** ** The evaluation component *)

(** Modelled from the spec: the record [EvaluationConfig] of
    [cnnClassifier.entity.config_entity], whose declaration is not part of the
    sources at hand.  The first four fields are the ones that
    [evaluation.py] reads; [validation_split_fraction] and
    [report_output_path] are the remaining fields of the Configuration
    interface. *)
Record EvaluationConfig : Type := {
  path_of_model : string;
  training_data : string;
  params_image_size : list nat;
  params_batch_size : nat;
  validation_split_fraction : Q;
  report_output_path : string
}.

Record ClassMetric : Type := {
  precision : Q;
  recall : Q;
  f1_score : Q;
  support : nat
}.

Record OverallMetrics : Type := {
  macro_precision : pyfloat;
  macro_recall : pyfloat;
  macro_f1_score : pyfloat;
  weighted_precision : pyfloat;
  weighted_recall : pyfloat;
  weighted_f1_score : pyfloat
}.

(** The attributes of an [Evaluation] object.  An attribute that has not
    been assigned yet is [None]. *)
Record Evaluation : Type := {
  self_config : EvaluationConfig;
  self_valid_generator : option keras.DirectoryIterator;
  self_score : option (Q * Q);
  self_confusion_matrix : option (list (list nat));
  self_class_metrics : option (dict ClassMetric);
  self_overall_metrics : option OverallMetrics
}.

(** [Evaluation(config)]. *)
Definition __init__ (config : EvaluationConfig) : Evaluation :=
  {| self_config := config;
     self_valid_generator := None;
     self_score := None;
     self_confusion_matrix := None;
     self_class_metrics := None;
     self_overall_metrics := None |}.

(** *** Methods as computations on the object

    A method reads and assigns attributes of [self] and may raise; the
    assignments made before an exception are kept. *)

Definition M (A : Type) : Type := Evaluation -> Evaluation * result A.

Definition ret {A : Type} (a : A) : M A := fun self => (self, Ok a).

Definition bind {A B : Type} (m : M A) (k : A -> M B) : M B :=
  fun self =>
    match m self with
    | (self', Ok a) => k a self'
    | (self', Raise e) => (self', Raise e)
    end.

Definition lift {A : Type} (r : result A) : M A := fun self => (self, r).

Definition read {A : Type} (attr : Evaluation -> option A) : M A :=
  fun self =>
    match attr self with
    | Some a => (self, Ok a)
    | None => (self, Raise AttributeError)
    end.

Definition assign (update : Evaluation -> Evaluation) : M unit :=
  fun self => (update self, Ok tt).

Notation "x <- m ;; k" := (bind m (fun x => k))
  (at level 61, m at next level, right associativity).
Notation "' pat <- m ;; k" := (bind m (fun x => match x with pat => k end))
  (at level 61, pat pattern, m at next level, right associativity).
Notation "m ;; k" := (bind m (fun _ => k))
  (at level 61, right associativity).

Definition set_valid_generator (g : keras.DirectoryIterator) (self : Evaluation)
  : Evaluation :=
  {| self_config := self_config self;
     self_valid_generator := Some g;
     self_score := self_score self;
     self_confusion_matrix := self_confusion_matrix self;
     self_class_metrics := self_class_metrics self;
     self_overall_metrics := self_overall_metrics self |}.

Definition set_confusion_matrix (cm : list (list nat)) (self : Evaluation)
  : Evaluation :=
  {| self_config := self_config self;
     self_valid_generator := self_valid_generator self;
     self_score := self_score self;
     self_confusion_matrix := Some cm;
     self_class_metrics := self_class_metrics self;
     self_overall_metrics := self_overall_metrics self |}.

Definition set_class_metrics (d : dict ClassMetric) (self : Evaluation)
  : Evaluation :=
  {| self_config := self_config self;
     self_valid_generator := self_valid_generator self;
     self_score := self_score self;
     self_confusion_matrix := self_confusion_matrix self;
     self_class_metrics := Some d;
     self_overall_metrics := self_overall_metrics self |}.

Definition set_overall_metrics (o : OverallMetrics) (self : Evaluation)
  : Evaluation :=
  {| self_config := self_config self;
     self_valid_generator := self_valid_generator self;
     self_score := self_score self;
     self_confusion_matrix := self_confusion_matrix self;
     self_class_metrics := self_class_metrics self;
     self_overall_metrics := Some o |}.

(** The directory trees on disk: for a path, its class subdirectories with
    their image files, or [None] when the path does not exist. *)
Definition Disk : Type := string -> option (list (string * list string)).

(** [Evaluation._valid_generator]. *)
Definition _valid_generator (disk : Disk) : M unit :=
  fun self =>
    let datagenerator_kwargs :=
      {| keras.rescale := (1 / 255)%Q;
         keras.validation_split := 0.20%Q |} in
    let target_size := firstn 2 (params_image_size (self_config self)) in
    let batch_size := params_batch_size (self_config self) in
    let valid_datagenerator := datagenerator_kwargs in
    match disk (training_data (self_config self)) with
    | None => (self, Raise FileNotFoundError)
    | Some tree =>
        assign (set_valid_generator
                  (keras.flow_from_directory valid_datagenerator tree
                     target_size batch_size "bilinear")) self
    end.

(** The loop of [calculate_metrics] that fills [self.class_metrics]. *)
Definition fill_class_metrics (class_labels : list string)
    (precision recall f1 : list Q) (support : list nat) : dict ClassMetric :=
  fold_left
    (fun class_metrics '(idx, label) =>
       dict_set label
         {| precision := nth idx precision 0%Q;
            recall := nth idx recall 0%Q;
            f1_score := nth idx f1 0%Q;
            support := nth idx support 0 |}
         class_metrics)
    (enumerate class_labels) [].

(** [Evaluation.calculate_metrics].  [y_pred] is the label sequence
    [np.argmax(model.predict(...), axis=1)] of its first lines; the network
    that produces it is not modelled. *)
Definition calculate_metrics (y_pred : list nat) : M unit :=
  generator <- read self_valid_generator ;;
  let y_true := keras.classes generator in
  let class_labels := keys (keras.class_indices generator) in
  cm <- lift (sklearn.confusion_matrix y_true y_pred) ;;
  assign (set_confusion_matrix cm) ;;
  '(precision, recall, f1, support) <-
     lift (sklearn.precision_recall_fscore_support y_true y_pred
             (seq 0 (length class_labels))) ;;
  assign (set_class_metrics
            (fill_class_metrics class_labels precision recall f1 support)) ;;
  weighted_precision <- lift (np.average precision support) ;;
  weighted_recall <- lift (np.average recall support) ;;
  weighted_f1_score <- lift (np.average f1 support) ;;
  assign (set_overall_metrics
            {| macro_precision := np.mean precision;
               macro_recall := np.mean recall;
               macro_f1_score := np.mean f1;
               weighted_precision := weighted_precision;
               weighted_recall := weighted_recall;
               weighted_f1_score := weighted_f1_score |}).

(** ** Persisting the report *)

(** The files on disk: the content stored at each path, if any. *)
Definition FS : Type := string -> option string.

Definition fs_write (path content : string) (fs : FS) : FS :=
  fun p => if String.eqb p path then Some content else fs p.

(** The dictionary [scores] that [save_score] assembles. *)
Record Scores : Type := {
  loss : Q;
  accuracy : Q;
  confusion_matrix : list (list nat);
  class_labels : list string;
  per_class_metrics : dict ClassMetric;
  overall_metrics : OverallMetrics
}.

Section ReportWriter.

(** The chunks of text that [json.dump(data, f, indent=4)] hands to
    [f.write], in order.  Their concatenation is the JSON document. *)
Variable iterencode : Scores -> list string.

Definition json_text (data : Scores) : string :=
  fold_right String.append EmptyString (iterencode data).

(** The successive contents of the disk while the chunks are appended to
    the file at [path], which already holds [written]. *)
Fixpoint write_chunks (path written : string) (chunks : list string)
    (fs : FS) : list FS :=
  match chunks with
  | [] => []
  | chunk :: chunks' =>
      let written' := String.append written chunk in
      fs_write path written' fs :: write_chunks path written' chunks' fs
  end.

(** [save_json(path, data)]: [open(path, "w")] creates the file or
    truncates it to length zero, then every chunk is written in place.
    The result lists the state of the disk after each of these steps; the
    last element is the state in which [save_json] returns.  A process
    that stops early leaves the disk in one of the earlier states. *)
Definition save_json (path : string) (data : Scores) (fs : FS) : list FS :=
  fs_write path EmptyString fs
    :: write_chunks path EmptyString (iterencode data) fs.

(** [Evaluation.save_score]. *)
Definition save_score (self : Evaluation) (fs : FS) : result (list FS) :=
  match self_score self, self_confusion_matrix self,
        self_valid_generator self, self_class_metrics self,
        self_overall_metrics self with
  | Some score, Some cm, Some generator, Some class_metrics, Some overall =>
      let scores :=
        {| loss := fst score;
           accuracy := snd score;
           confusion_matrix := cm;
           class_labels := keys (keras.class_indices generator);
           per_class_metrics := class_metrics;
           overall_metrics := overall |} in
      Ok (save_json "scores.json" scores fs)
  | _, _, _, _, _ => Raise AttributeError
  end.

End ReportWriter.

(** ** What the specification asks of the stream builder and of the writer *)

(** The validation subset of a directory tree for a split fraction [f]:
    for every class, the leading [floor(f * n)] of its [n] files. *)
Definition validation_partition (f : Q) (tree : list (string * list string))
  : list (list string) :=
  map (fun '(name, files) => keras.validation_files f files) tree.

(** A write to [path] is atomic when every state of the disk that can be
    observed holds at [path] either what was there before or the complete
    new document. *)
Definition atomic_write (path : string) (before : FS) (document : string)
    (states : list FS) : Prop :=
  forall fs, In fs states -> fs path = before path \/ fs path = Some document.

(** ** Reference values for the metrics *)

(** The entry that class index [c] receives in [self.class_metrics]. *)
Definition class_metric_at (y_true y_pred : list nat) (c : nat) : ClassMetric :=
  let p := sklearn._prf_divide (sklearn.tp_sum y_true y_pred c)
                               (sklearn.pred_sum y_pred c) in
  let r := sklearn._prf_divide (sklearn.tp_sum y_true y_pred c)
                               (sklearn.true_sum y_true c) in
  {| precision := p;
     recall := r;
     f1_score := sklearn.f_score p r;
     support := sklearn.true_sum y_true c |}.

(** [sum(metric[c] * support[c])] and [sum(support[c])] over the entries of
    a per-class dictionary. *)
Definition weighted_total (metric : ClassMetric -> Q) (d : dict ClassMetric)
  : Q :=
  np.sum (map (fun e => (metric (snd e) * Qnat (support (snd e)))%Q) d).

Definition total_support (d : dict ClassMetric) : nat :=
  list_sum (map (fun e => support (snd e)) d).

Definition in_unit_interval (q : Q) : Prop := (0 <= q /\ q <= 1)%Q.

(** The three attributes that [calculate_metrics] assigns. *)
Definition metrics_of (self : Evaluation)
  : option (list (list nat)) * option (dict ClassMetric)
    * option OverallMetrics :=
  (self_confusion_matrix self, self_class_metrics self,
   self_overall_metrics self).

Definition row_sum (cm : list (list nat)) (c : nat) : nat :=
  list_sum (nth c cm []).

Definition all_cells (cm : list (list nat)) : nat :=
  list_sum (map (@list_sum) cm).

(** The arrays that [precision_recall_fscore_support] returns for the labels
    [0 .. K-1]. *)
Definition precision_array (y_true y_pred : list nat) (K : nat) : list Q :=
  map (fun c => precision (class_metric_at y_true y_pred c)) (seq 0 K).

Definition recall_array (y_true y_pred : list nat) (K : nat) : list Q :=
  map (fun c => recall (class_metric_at y_true y_pred c)) (seq 0 K).

Definition f1_array (y_true y_pred : list nat) (K : nat) : list Q :=
  map (fun c => f1_score (class_metric_at y_true y_pred c)) (seq 0 K).

Definition support_array (y_true : list nat) (K : nat) : list nat :=
  map (sklearn.true_sum y_true) (seq 0 K).

(** The matrix that [confusion_matrix] returns for sequences of one length. *)
Definition cm_of (y_true y_pred : list nat) : list (list nat) :=
  let labels := sklearn.unique_labels y_true y_pred in
  map (fun i => map (fun j => sklearn.count_pairs i j (combine y_true y_pred))
                    labels) labels.

(** The object after the first two assignments of [calculate_metrics]. *)
Definition with_class_metrics (self : Evaluation)
    (generator : keras.DirectoryIterator) (y_pred : list nat) : Evaluation :=
  let y_true := keras.classes generator in
  let class_labels := keys (keras.class_indices generator) in
  let K := length class_labels in
  set_class_metrics
    (fill_class_metrics class_labels
       (precision_array y_true y_pred K) (recall_array y_true y_pred K)
       (f1_array y_true y_pred K) (support_array y_true K))
    (set_confusion_matrix (cm_of y_true y_pred) self).

(** The value of [self.overall_metrics] when the weights do not sum to
    zero. *)
Definition overall_of (y_true y_pred : list nat) (K : nat) : OverallMetrics :=
  let w := support_array y_true K in
  let avg := fun a => Fin (np.sum (np.multiply a w) / Qnat (list_sum w))%Q in
  {| macro_precision := np.mean (precision_array y_true y_pred K);
     macro_recall := np.mean (recall_array y_true y_pred K);
     macro_f1_score := np.mean (f1_array y_true y_pred K);
     weighted_precision := avg (precision_array y_true y_pred K);
     weighted_recall := avg (recall_array y_true y_pred K);
     weighted_f1_score := avg (f1_array y_true y_pred K) |}.

(** The same object with another configuration. *)
Definition with_config (config : EvaluationConfig) (self : Evaluation)
  : Evaluation :=
  {| self_config := config;
     self_valid_generator := self_valid_generator self;
     self_score := self_score self;
     self_confusion_matrix := self_confusion_matrix self;
     self_class_metrics := self_class_metrics self;
     self_overall_metrics := self_overall_metrics self |}.

(** The same configuration with another validation fraction. *)
Definition with_validation_split_fraction (f : Q) (config : EvaluationConfig)
  : EvaluationConfig :=
  {| path_of_model := path_of_model config;
     training_data := training_data config;
     params_image_size := params_image_size config;
     params_batch_size := params_batch_size config;
     validation_split_fraction := f;
     report_output_path := report_output_path config |}.

(** The same configuration with another report path. *)
Definition with_report_output_path (path : string) (config : EvaluationConfig)
  : EvaluationConfig :=
  {| path_of_model := path_of_model config;
     training_data := training_data config;
     params_image_size := params_image_size config;
     params_batch_size := params_batch_size config;
     validation_split_fraction := validation_split_fraction config;
     report_output_path := path |}.

(** The dictionary [scores] of an object whose attributes
    [save_score] reads are all assigned. *)
Definition scores_of (score : Q * Q) (cm : list (list nat))
    (generator : keras.DirectoryIterator) (d : dict ClassMetric)
    (o : OverallMetrics) : Scores :=
  {| loss := fst score;
     accuracy := snd score;
     confusion_matrix := cm;
     class_labels := keys (keras.class_indices generator);
     per_class_metrics := d;
     overall_metrics := o |}.

(** The state of the disk in which a run of steps ends, [fs] for no step. *)
Definition final_state (states : list FS) (fs : FS) : FS := last states fs.

(** ** Sample objects *)

Definition sample_config : EvaluationConfig :=
  {| path_of_model := "artifacts/training/model.h5";
     training_data := "artifacts/data_ingestion/Chicken-fecal-images";
     params_image_size := [224; 224; 3];
     params_batch_size := 16;
     validation_split_fraction := 0.5%Q;
     report_output_path := "artifacts/evaluation/report.json" |}.

Definition sample_generator (class_names : list string) (y_true : list nat)
  : keras.DirectoryIterator :=
  {| keras.filepaths := [];
     keras.classes := y_true;
     keras.class_indices := combine class_names (seq 0 (length class_names));
     keras.target_size := [224; 224];
     keras.batch_size := 16;
     keras.interpolation := "bilinear";
     keras.shuffle := false |}.

(** An object on which [_valid_generator] has found the given classes and
    true labels, and [model.evaluate] has stored a score. *)
Definition sample_evaluation (class_names : list string) (y_true : list nat)
  : Evaluation :=
  {| self_config := sample_config;
     self_valid_generator := Some (sample_generator class_names y_true);
     self_score := Some (0.5%Q, 0.75%Q);
     self_confusion_matrix := None;
     self_class_metrics := None;
     self_overall_metrics := None |}.

Definition cat_dog_fish : list string := ["cat"; "dog"; "fish"]%string.

(** Two class directories with ten images each. *)
Definition ten_images (prefix : string) : list string :=
  map (String.append prefix)
      ["0"; "1"; "2"; "3"; "4"; "5"; "6"; "7"; "8"; "9"]%string.

Definition sample_tree : list (string * list string) :=
  [("Coccidiosis", ten_images "cocci."); ("Healthy", ten_images "healthy.")]%string.

Definition sample_disk : Disk :=
  fun path =>
    if String.eqb path (training_data sample_config) then Some sample_tree
    else None.

(** A disk on which an earlier report is stored. *)
Definition sample_fs : FS :=
  fun path =>
    if String.eqb path "scores.json" then Some "previous report"%string
    else None.

(** An encoder that hands the document over in three chunks; it stands for
    any encoder whose document is not empty. *)
Definition sample_iterencode : Scores -> list string :=
  fun _ => ["{"; "..."; "}"]%string.

(** An object on which [calculate_metrics] has run. *)
Definition evaluated_sample : Evaluation :=
  fst (calculate_metrics [0; 1; 1; 2; 2]
         (sample_evaluation cat_dog_fish [0; 0; 1; 1; 2])).

(** ** Further reference values *)


(** The value of a finite [pyfloat] lies in [0,1]. *)
Definition pyfloat_in_unit_interval (x : pyfloat) : Prop :=
  match x with
  | Fin q => in_unit_interval q
  | NaN => False
  end.


(** The true labels that [flow_from_directory] assigns when the class
    directories are numbered from [start]. *)
Definition labels_from (split : Q) (start : nat)
    (tree : list (string * list string)) : list nat :=
  flat_map (fun '(idx, files) => repeat idx (length files))
    (map (fun '(idx, (name, files)) =>
            (idx, keras.validation_files split files))
         (combine (seq start (length tree)) tree)).

(** The files of the class directory with index [c], none past the last. *)
Definition class_files (tree : list (string * list string)) (c : nat)
  : list string :=
  snd (nth c tree (EmptyString, [])).

(** ** The method [evaluation] *)

(** [np.argmax] of one row: the index of the first occurrence of the
    maximum; [best_idx] and [best] are the index and the value of the
    maximum found so far, [idx] is the index of the head of [row]. *)
Fixpoint argmax_from (best_idx : nat) (best : Q) (idx : nat) (row : list Q)
  : nat :=
  match row with
  | [] => best_idx
  | x :: row' =>
      if Qle_bool x best then argmax_from best_idx best (S idx) row'
      else argmax_from idx x (S idx) row'
  end.

(** [np.argmax(row)]; ValueError for an empty sequence. *)
Definition argmax (row : list Q) : result nat :=
  match row with
  | [] => Raise ValueError
  | x :: row' => Ok (argmax_from 0 x 1 row')
  end.

(** [np.argmax(predictions, axis=1)]. *)
Fixpoint argmax_axis1 (predictions : list (list Q)) : result (list nat) :=
  match predictions with
  | [] => Ok []
  | row :: predictions' =>
      match argmax row with
      | Raise e => Raise e
      | Ok label =>
          match argmax_axis1 predictions' with
          | Raise e => Raise e
          | Ok labels => Ok (label :: labels)
          end
      end
  end.

(** A loaded [tf.keras.Model], as far as [evaluation] uses it:
    [model.evaluate(generator)], which returns the loss and the accuracy, and
    [model.predict(generator, steps=len(generator))], which returns one row
    of class probabilities per sample.  Either call may raise. *)
Record Model : Type := {
  evaluate : keras.DirectoryIterator -> result (Q * Q);
  predict : keras.DirectoryIterator -> result (list (list Q))
}.

(** The saved models on disk: [tf.keras.models.load_model(path)] returns the
    model stored at [path] and raises OSError when there is none. *)
Definition ModelStore : Type := string -> option Model.

(** How a call of [evaluation] ends.  TypeError and OSError are raised by
    this method only. *)
Inductive call_outcome : Type :=
| Returned
| Raised (e : exn)
| RaisedTypeError
| RaisedOSError.

Definition set_score (score : Q * Q) (self : Evaluation) : Evaluation :=
  {| self_config := self_config self;
     self_valid_generator := self_valid_generator self;
     self_score := Some score;
     self_confusion_matrix := self_confusion_matrix self;
     self_class_metrics := self_class_metrics self;
     self_overall_metrics := self_overall_metrics self |}.

(** [Evaluation.evaluation].  The call [self._valid_generator()] finds the
    method only while no attribute of that name has been assigned: the
    method itself assigns the iterator to [self._valid_generator], which
    from then on shadows the method, and calling the iterator raises
    TypeError. *)
Definition evaluation (models : ModelStore) (disk : Disk) (self : Evaluation)
  : Evaluation * call_outcome :=
  match models (path_of_model (self_config self)) with
  | None => (self, RaisedOSError)
  | Some model =>
      match self_valid_generator self with
      | Some _ => (self, RaisedTypeError)
      | None =>
          match _valid_generator disk self with
          | (self1, Raise e) => (self1, Raised e)
          | (self1, Ok _) =>
              match self_valid_generator self1 with
              | None => (self1, Raised AttributeError)
              | Some generator =>
                  match evaluate model generator with
                  | Raise e => (self1, Raised e)
                  | Ok score =>
                      let self2 := set_score score self1 in
                      match predict model generator with
                      | Raise e => (self2, Raised e)
                      | Ok predictions =>
                          match argmax_axis1 predictions with
                          | Raise e => (self2, Raised e)
                          | Ok y_pred =>
                              match calculate_metrics y_pred self2 with
                              | (self3, Ok _) => (self3, Returned)
                              | (self3, Raise e) => (self3, Raised e)
                              end
                          end
                      end
                  end
              end
          end
      end
  end.

(** A model that answers every sample with the same probabilities. *)
Definition constant_model (score : Q * Q) (row : list Q) : Model :=
  {| evaluate := fun _ => Ok score;
     predict := fun generator =>
                  Ok (map (fun _ => row) (keras.classes generator)) |}.

Definition sample_models : ModelStore :=
  fun path =>
    if String.eqb path (path_of_model sample_config)
    then Some (constant_model (0.5%Q, 0.75%Q) [0.25%Q; 0.75%Q])
    else None.

(** ** Helpers of [utils/common.py] and the data ingestion component

    A file holds a sequence of bytes, written as a [string] of 8-bit
    characters; [FS] maps the paths of the regular files to their content. *)

From Stdlib Require Import Ascii DecimalString NArith.

(** [round(n / d)] for a quotient that the float division computes exactly:
    the nearest integer, a tie going to the even neighbour. *)
Definition round_quotient (n d : nat) : nat :=
  let q := n / d in
  let r := n mod d in
  match Nat.compare (2 * r) d with
  | Lt => q
  | Gt => S q
  | Eq => if Nat.even q then q else S q
  end.

(** [str(n)] of a non-negative integer. *)
Definition decimal (n : nat) : string := NilZero.string_of_uint (Nat.to_uint n).

(** [get_size(path)]: [os.path.getsize] raises FileNotFoundError when there
    is no file at [path]. *)
Definition get_size (fs : FS) (path : string) : result string :=
  match fs path with
  | None => Raise FileNotFoundError
  | Some content =>
      let size_in_kb := round_quotient (String.length content) 1024 in
      Ok (String.append "~ " (String.append (decimal size_in_kb) " KB"))
  end.









(** ** Base64 images

    [base64.b64encode] and [base64.b64decode] as the module [binascii]
    implements them; byte values are numbers [N] below 256. *)

Definition BASE64_PAD : ascii := "="%char.

(** [table_b2a_base64[n]], the character of a six-bit value. *)
Definition table_b2a_base64 (n : N) : ascii :=
  match
    String.get (N.to_nat n)
      "ABCDEFGHIJKLMNOPQRSTUVWXYZabcdefghijklmnopqrstuvwxyz0123456789+/"
  with
  | Some ch => ch
  | None => BASE64_PAD
  end.

(** [table_a2b_base64[ch]], the six-bit value of a character of the
    alphabet; [None] for every other character. *)
Definition table_a2b_base64 (ch : ascii) : option N :=
  let n := N_of_ascii ch in
  if ((65 <=? n) && (n <=? 90))%N then Some (n - 65)%N
  else if ((97 <=? n) && (n <=? 122))%N then Some (n - 71)%N
  else if ((48 <=? n) && (n <=? 57))%N then Some (n + 4)%N
  else if (n =? 43)%N then Some 62%N
  else if (n =? 47)%N then Some 63%N
  else None.

(** The six-bit groups of three bytes [a], [b], [c]. *)
Definition sextet0 (a : ascii) : N := N.shiftr (N_of_ascii a) 2.

Definition sextet1 (a b : ascii) : N :=
  N.lor (N.shiftl (N.land (N_of_ascii a) 3) 4) (N.shiftr (N_of_ascii b) 4).

Definition sextet2 (b c : ascii) : N :=
  N.lor (N.shiftl (N.land (N_of_ascii b) 15) 2) (N.shiftr (N_of_ascii c) 6).

Definition sextet3 (c : ascii) : N := N.land (N_of_ascii c) 63.

(** [binascii.b2a_base64(data, newline=False)]: three bytes give four
    characters; a remainder of one or two bytes gives two or three
    characters, filled up with the pad character. *)
Fixpoint b2a_base64 (data : string) : string :=
  match data with
  | EmptyString => EmptyString
  | String a EmptyString =>
      String (table_b2a_base64 (sextet0 a))
        (String (table_b2a_base64 (N.shiftl (N.land (N_of_ascii a) 3) 4))
           (String BASE64_PAD (String BASE64_PAD EmptyString)))
  | String a (String b EmptyString) =>
      String (table_b2a_base64 (sextet0 a))
        (String (table_b2a_base64 (sextet1 a b))
           (String (table_b2a_base64
                      (N.shiftl (N.land (N_of_ascii b) 15) 2))
              (String BASE64_PAD EmptyString)))
  | String a (String b (String c rest)) =>
      String (table_b2a_base64 (sextet0 a))
        (String (table_b2a_base64 (sextet1 a b))
           (String (table_b2a_base64 (sextet2 b c))
              (String (table_b2a_base64 (sextet3 c)) (b2a_base64 rest))))
  end.

(** Appending one decoded byte to the output of the rest of the loop. *)
Definition emit (byte : N) (rest : result string) : result string :=
  match rest with
  | Ok out => Ok (String (ascii_of_N byte) out)
  | Raise e => Raise e
  end.

(** The loop of [binascii.a2b_base64] (not strict): [quad_pos] is the
    position in the current group of four characters, [leftchar] holds the
    bits not yet written, [pads] counts the pad characters seen since the
    last character of the alphabet.  A pad sequence that completes a group
    ends the decoding; other pad characters and all characters outside the
    alphabet are skipped.  Input that ends inside a group is rejected with
    binascii.Error, a ValueError. *)
Fixpoint a2b_loop (quad_pos : nat) (leftchar : N) (pads : nat)
    (data : string) : result string :=
  match data with
  | EmptyString => if quad_pos =? 0 then Ok EmptyString else Raise ValueError
  | String ch rest =>
      if Ascii.eqb ch BASE64_PAD then
        if (2 <=? quad_pos) && (4 <=? quad_pos + S pads) then Ok EmptyString
        else a2b_loop quad_pos leftchar
               (if 2 <=? quad_pos then S pads else pads) rest
      else
        match table_a2b_base64 ch with
        | None => a2b_loop quad_pos leftchar pads rest
        | Some this_ch =>
            match quad_pos with
            | 0 => a2b_loop 1 this_ch 0 rest
            | 1 =>
                emit (N.lor (N.shiftl leftchar 2) (N.shiftr this_ch 4))
                     (a2b_loop 2 (N.land this_ch 15) 0 rest)
            | 2 =>
                emit (N.lor (N.shiftl leftchar 4) (N.shiftr this_ch 2))
                     (a2b_loop 3 (N.land this_ch 3) 0 rest)
            | _ =>
                emit (N.lor (N.shiftl leftchar 6) this_ch)
                     (a2b_loop 0 0%N 0 rest)
            end
        end
  end.

Definition a2b_base64 (data : string) : result string :=
  a2b_loop 0 0%N 0 data.

(** The argument of [b64decode]: a [str] or a [bytes] object. *)
Inductive py_text : Type :=
| PyStr (s : string)
| PyBytes (b : string).

Definition is_ascii (ch : ascii) : bool := (N_of_ascii ch <? 128)%N.

Fixpoint all_ascii (s : string) : bool :=
  match s with
  | EmptyString => true
  | String ch s' => is_ascii ch && all_ascii s'
  end.

(** [base64._bytes_from_decode_data]: a [str] is encoded as ASCII, which
    fails with ValueError when it holds another character. *)
Definition _bytes_from_decode_data (s : py_text) : result string :=
  match s with
  | PyStr s => if all_ascii s then Ok s else Raise ValueError
  | PyBytes b => Ok b
  end.

(** [base64.b64encode(s)]. *)
Definition b64encode (s : string) : string := b2a_base64 s.

(** [base64.b64decode(s)], with [validate=False]. *)
Definition b64decode (s : py_text) : result string :=
  match _bytes_from_decode_data s with
  | Raise e => Raise e
  | Ok data => a2b_base64 data
  end.

(** [decodeImage(imgstring, fileName)]: the file is opened only after the
    string has been decoded. *)
Definition decodeImage (imgstring : py_text) (fileName : string) (fs : FS)
  : result FS :=
  match b64decode imgstring with
  | Raise e => Raise e
  | Ok imgdata => Ok (fs_write fileName imgdata fs)
  end.

(** [encodeImageIntoBase64(croppedImagePath)]. *)
Definition encodeImageIntoBase64 (croppedImagePath : string) (fs : FS)
  : result string :=
  match fs croppedImagePath with
  | None => Raise FileNotFoundError
  | Some content => Ok (b64encode content)
  end.

(** Whether a character belongs to the base64 alphabet or is the pad. *)
Definition base64_char (ch : ascii) : bool :=
  Ascii.eqb ch BASE64_PAD
  || match table_a2b_base64 ch with Some _ => true | None => false end.

Fixpoint keep_base64 (s : string) : string :=
  match s with
  | EmptyString => EmptyString
  | String ch s' =>
      if base64_char ch then String ch (keep_base64 s') else keep_base64 s'
  end.

(** Checking a property of characters on all 256 of them. *)
Definition forall_bool (p : bool -> bool) : bool := p true && p false.

Definition forall_ascii (p : ascii -> bool) : bool :=
  forall_bool (fun b0 => forall_bool (fun b1 => forall_bool (fun b2 =>
  forall_bool (fun b3 => forall_bool (fun b4 => forall_bool (fun b5 =>
  forall_bool (fun b6 => forall_bool (fun b7 =>
    p (Ascii b0 b1 b2 b3 b4 b5 b6 b7))))))))).

(** Whether every character of [s] belongs to the base64 alphabet. *)
Fixpoint all_alphabet (s : string) : bool :=
  match s with
  | EmptyString => true
  | String ch s' =>
      match table_a2b_base64 ch with
      | Some _ => all_alphabet s'
      | None => false
      end
  end.

Definition is_ok {A : Type} (r : result A) : bool :=
  match r with Ok _ => true | Raise _ => false end.

(** [sum(metric[c])] over the entries of a per-class dictionary. *)
Definition plain_total (metric : ClassMetric -> Q) (d : dict ClassMetric) : Q :=
  np.sum (map (fun e => metric (snd e)) d).

(** The selected files that [flow_from_directory] lists when the class
    directories are numbered from [start]. *)
Definition files_from (split : Q) (start : nat)
    (tree : list (string * list string)) : list string :=
  flat_map snd
    (map (fun '(idx, (name, files)) =>
            (idx, keras.validation_files split files))
         (combine (seq start (length tree)) tree)).

(** * Properties *)

(** ** Counting *)

Lemma tp_sum_le_pred_sum (y_true y_pred : list nat) (c : nat) :
  sklearn.tp_sum y_true y_pred c <= sklearn.pred_sum y_pred c.
Proof.
  unfold sklearn.tp_sum, sklearn.pred_sum, sklearn.count_pairs.
  revert y_pred.
  induction y_true as [|t y_true IH]; intros [|p y_pred]; simpl; try lia.
  specialize (IH y_pred).
  destruct (Nat.eq_dec p c) as [->|Hne].
  - rewrite Nat.eqb_refl, andb_true_r.
    destruct (t =? c); simpl; lia.
  - apply Nat.eqb_neq in Hne. rewrite Hne, andb_false_r. lia.
Qed.

Lemma tp_sum_le_true_sum (y_true y_pred : list nat) (c : nat) :
  sklearn.tp_sum y_true y_pred c <= sklearn.true_sum y_true c.
Proof.
  unfold sklearn.tp_sum, sklearn.true_sum, sklearn.count_pairs.
  revert y_pred.
  induction y_true as [|t y_true IH]; intros [|p y_pred]; simpl; try lia.
  specialize (IH y_pred).
  destruct (Nat.eq_dec t c) as [->|Hne].
  - rewrite Nat.eqb_refl.
    destruct (p =? c); simpl; lia.
  - apply Nat.eqb_neq in Hne. rewrite Hne. simpl. lia.
Qed.

(** ** Bounds on the quotients *)

Lemma Qnat_nonneg (n : nat) : (0 <= Qnat n)%Q.
Proof.
  unfold Qnat. change 0%Q with (inject_Z 0). rewrite <- Zle_Qle. lia.
Qed.

Lemma Qnat_pos (n : nat) : n <> 0 -> (0 < Qnat n)%Q.
Proof.
  intros Hn. unfold Qnat. change 0%Q with (inject_Z 0).
  rewrite <- Zlt_Qlt. lia.
Qed.

Lemma Qnat_le (n m : nat) : n <= m -> (Qnat n <= Qnat m)%Q.
Proof.
  intros H. unfold Qnat. rewrite <- Zle_Qle. lia.
Qed.

Lemma prf_divide_bounds (n d : nat) :
  n <= d -> in_unit_interval (sklearn._prf_divide n d).
Proof.
  intros Hle. unfold sklearn._prf_divide, in_unit_interval.
  destruct (Nat.eqb_spec d 0) as [->|Hd].
  - split; [apply Qle_refl | discriminate].
  - pose proof (Qnat_pos d Hd) as Hpos.
    pose proof (Qnat_nonneg n) as Hn.
    pose proof (Qnat_le n d Hle) as Hnd.
    split.
    + apply Qle_shift_div_l; [assumption|]. lra.
    + apply Qle_shift_div_r; [assumption|]. lra.
Qed.

Lemma f_score_bounds (p r : Q) :
  in_unit_interval p -> in_unit_interval r ->
  in_unit_interval (sklearn.f_score p r).
Proof.
  unfold in_unit_interval, sklearn.f_score. intros [Hp0 Hp1] [Hr0 Hr1].
  destruct (Qeq_bool (p + r) 0) eqn:E.
  - split; [apply Qle_refl | discriminate].
  - apply Qeq_bool_neq in E.
    assert (Hpos : (0 < p + r)%Q).
    { destruct (Qlt_le_dec 0 (p + r)) as [H|H]; [exact H|].
      exfalso. apply E. lra. }
    split.
    + apply Qle_shift_div_l; [assumption|]. nra.
    + apply Qle_shift_div_r; [assumption|]. nra.
Qed.

Lemma f_score_zero (p r : Q) :
  (p == 0)%Q -> (r == 0)%Q -> sklearn.f_score p r = 0%Q.
Proof.
  intros Hp Hr. unfold sklearn.f_score.
  destruct (Qeq_bool (p + r) 0) eqn:E; [reflexivity|].
  apply Qeq_bool_neq in E. exfalso. apply E. rewrite Hp, Hr. reflexivity.
Qed.

(** Later releases of scikit-learn compute the F-measure from the counts,
    as [2 * tp / (true_sum + pred_sum)]; the value is the same. *)
Lemma f_score_from_counts (tp pred_sum true_sum : nat) :
  tp <= pred_sum -> tp <= true_sum ->
  (sklearn.f_score (sklearn._prf_divide tp pred_sum)
                   (sklearn._prf_divide tp true_sum)
   == sklearn._prf_divide (2 * tp) (true_sum + pred_sum))%Q.
Proof.
  intros Hp Ht.
  destruct (Nat.eq_dec tp 0) as [->|Htp].
  - assert (Hzero : forall d, (sklearn._prf_divide 0 d == 0)%Q).
    { intros d. unfold sklearn._prf_divide.
      destruct (d =? 0); [reflexivity|].
      unfold Qnat. simpl. unfold Qdiv. now rewrite Qmult_0_l. }
    rewrite (f_score_zero _ _ (Hzero pred_sum) (Hzero true_sum)).
    symmetry. apply (Hzero (true_sum + pred_sum)).
  - unfold sklearn._prf_divide, sklearn.f_score.
    destruct (Nat.eqb_spec pred_sum 0) as [->|Hpn]; [lia|].
    destruct (Nat.eqb_spec true_sum 0) as [->|Htn]; [lia|].
    destruct (Nat.eqb_spec (true_sum + pred_sum) 0) as [Hs|_]; [lia|].
    pose proof (Qnat_pos tp Htp) as Htp'.
    pose proof (Qnat_pos pred_sum Hpn) as Hpn'.
    pose proof (Qnat_pos true_sum Htn) as Htn'.
    assert (Hsum : (0 < Qnat tp / Qnat pred_sum + Qnat tp / Qnat true_sum)%Q).
    { assert (0 < Qnat tp / Qnat pred_sum)%Q
        by (apply Qlt_shift_div_l; [assumption | lra]).
      assert (0 < Qnat tp / Qnat true_sum)%Q
        by (apply Qlt_shift_div_l; [assumption | lra]).
      lra. }
    destruct (Qeq_bool _ 0) eqn:E.
    + apply Qeq_bool_iff in E. rewrite E in Hsum. discriminate Hsum.
    + assert (Hadd : (Qnat (true_sum + pred_sum)
                      == Qnat true_sum + Qnat pred_sum)%Q).
      { unfold Qnat. rewrite Nat2Z.inj_add, inject_Z_plus. reflexivity. }
      assert (Hmul : (Qnat (2 * tp) == 2 * Qnat tp)%Q).
      { unfold Qnat. rewrite Nat2Z.inj_mul, inject_Z_mult. reflexivity. }
      rewrite Hadd, Hmul. field.
      assert (0 < Qnat tp * Qnat true_sum)%Q by nra.
      assert (0 < Qnat tp * Qnat pred_sum)%Q by nra.
      repeat split; lra.
Qed.

(** ** Running [calculate_metrics] *)

Lemma calculate_metrics_no_generator (self : Evaluation) (y_pred : list nat) :
  self_valid_generator self = None ->
  calculate_metrics y_pred self = (self, Raise AttributeError).
Proof.
  intros Hg. unfold calculate_metrics, bind, read. rewrite Hg. reflexivity.
Qed.

Lemma calculate_metrics_length_mismatch
    (self : Evaluation) (generator : keras.DirectoryIterator)
    (y_pred : list nat) :
  self_valid_generator self = Some generator ->
  length (keras.classes generator) <> length y_pred ->
  calculate_metrics y_pred self = (self, Raise ValueError).
Proof.
  intros Hg Hlen. apply Nat.eqb_neq in Hlen.
  unfold calculate_metrics, bind, read, lift. rewrite Hg.
  unfold sklearn.confusion_matrix. rewrite Hlen. reflexivity.
Qed.

Lemma calculate_metrics_aligned
    (self : Evaluation) (generator : keras.DirectoryIterator)
    (y_pred : list nat) :
  self_valid_generator self = Some generator ->
  length (keras.classes generator) = length y_pred ->
  let y_true := keras.classes generator in
  let K := length (keras.class_indices generator) in
  calculate_metrics y_pred self =
    if list_sum (support_array y_true K) =? 0
    then (with_class_metrics self generator y_pred, Raise ZeroDivisionError)
    else (set_overall_metrics (overall_of y_true y_pred K)
            (with_class_metrics self generator y_pred), Ok tt).
Proof.
  intros Hg Hlen y_true K. apply Nat.eqb_eq in Hlen.
  unfold calculate_metrics, bind, read, lift, assign. rewrite Hg.
  unfold sklearn.confusion_matrix, sklearn.precision_recall_fscore_support.
  rewrite Hlen. cbv beta iota zeta.
  unfold np.average, with_class_metrics, overall_of, keys.
  rewrite length_map. fold y_true. fold K.
  change (map (sklearn.true_sum y_true) (seq 0 K))
    with (support_array y_true K).
  destruct (list_sum (support_array y_true K) =? 0); reflexivity.
Qed.

(** ** The per-class dictionary *)

Lemma dict_set_fresh {V : Type} (k : string) (v : V) (d : dict V) :
  ~ In k (keys d) -> dict_set k v d = d ++ [(k, v)].
Proof.
  induction d as [|[k' v'] d IH]; simpl; intros Hnot; [reflexivity|].
  destruct (String.eqb_spec k k') as [->|Hne].
  - exfalso. apply Hnot. now left.
  - rewrite IH; [reflexivity|]. intros Hin. apply Hnot. now right.
Qed.

Lemma fold_dict_set_fresh {V : Type} (g : nat -> V)
    (l : list (nat * string)) (acc : dict V) :
  NoDup (keys acc ++ map snd l) ->
  fold_left (fun d '(idx, label) => dict_set label (g idx) d) l acc
  = acc ++ map (fun '(idx, label) => (label, g idx)) l.
Proof.
  revert acc.
  induction l as [|[idx label] l IH]; simpl; intros acc Hnd.
  - now rewrite app_nil_r.
  - assert (Hfresh : ~ In label (keys acc)).
    { intros Hin. apply NoDup_remove_2 in Hnd. apply Hnd.
      apply in_or_app. now left. }
    rewrite dict_set_fresh by exact Hfresh.
    rewrite IH.
    + now rewrite <- app_assoc.
    + unfold keys in *. rewrite map_app. simpl. rewrite <- app_assoc. exact Hnd.
Qed.

Lemma map_swap_combine {A B C : Type} (f : A -> C) (la : list A) (lb : list B) :
  map (fun '(a, b) => (b, f a)) (combine la lb) = combine lb (map f la).
Proof.
  revert lb. induction la as [|a la IH]; intros [|b lb]; simpl;
    try reflexivity.
  now rewrite IH.
Qed.

Lemma nth_map_seq {A : Type} (f : nat -> A) (K idx : nat) (d : A) :
  idx < K -> nth idx (map f (seq 0 K)) d = f idx.
Proof.
  intros Hlt.
  rewrite (nth_indep _ d (f 0)) by (rewrite length_map, length_seq; exact Hlt).
  rewrite map_nth. now rewrite seq_nth.
Qed.

Lemma fill_class_metrics_NoDup
    (class_labels : list string) (y_true y_pred : list nat) :
  NoDup class_labels ->
  let K := length class_labels in
  fill_class_metrics class_labels
    (precision_array y_true y_pred K) (recall_array y_true y_pred K)
    (f1_array y_true y_pred K) (support_array y_true K)
  = combine class_labels (map (class_metric_at y_true y_pred) (seq 0 K)).
Proof.
  intros Hnd K. unfold fill_class_metrics.
  rewrite (fold_dict_set_fresh
             (fun idx =>
                {| precision := nth idx (precision_array y_true y_pred K) 0%Q;
                   recall := nth idx (recall_array y_true y_pred K) 0%Q;
                   f1_score := nth idx (f1_array y_true y_pred K) 0%Q;
                   support := nth idx (support_array y_true K) 0 |})).
  - simpl. rewrite <- map_swap_combine. unfold enumerate. fold K.
    apply map_ext_in. intros [idx label] Hin.
    apply in_combine_l in Hin. apply in_seq in Hin.
    unfold precision_array, recall_array, f1_array, support_array.
    rewrite !nth_map_seq by lia. reflexivity.
  - simpl. unfold enumerate.
    assert (Hsnd : map snd (combine (seq 0 (length class_labels)) class_labels)
                   = class_labels).
    { clear. generalize 0. induction class_labels as [|x l IH]; intros s;
        simpl; [reflexivity|]. now rewrite IH. }
    now rewrite Hsnd.
Qed.

(** ** Total support *)

Lemma count_in_range_step (y : list nat) (K : nat) :
  length (filter (fun c => c <? S K) y)
  = length (filter (fun c => c <? K) y) + sklearn.true_sum y K.
Proof.
  unfold sklearn.true_sum.
  induction y as [|c y IH]; simpl; [reflexivity|].
  destruct (Nat.eq_dec c K) as [->|Hne].
  - assert (E1 : (K <? S K) = true) by (apply Nat.ltb_lt; lia).
    assert (E2 : (K <? K) = false) by (apply Nat.ltb_ge; lia).
    rewrite E1, E2. simpl. lia.
  - destruct (Nat.ltb_spec c K) as [Hlt|Hge].
    + assert (E1 : (c <? S K) = true) by (apply Nat.ltb_lt; lia).
      rewrite E1. simpl. lia.
    + assert (E1 : (c <? S K) = false) by (apply Nat.ltb_ge; lia).
      rewrite E1. exact IH.
Qed.

Lemma support_array_total (y_true : list nat) (K : nat) :
  list_sum (support_array y_true K)
  = length (filter (fun c => c <? K) y_true).
Proof.
  unfold support_array.
  induction K as [|K IH].
  - simpl. induction y_true as [|c y IHy]; simpl; [reflexivity | exact IHy].
  - rewrite seq_S, map_app, list_sum_app, IH. simpl.
    rewrite count_in_range_step. lia.
Qed.

Lemma support_positive (y_true : list nat) (K : nat) :
  y_true <> [] -> Forall (fun c => c < K) y_true ->
  list_sum (support_array y_true K) <> 0.
Proof.
  intros Hne Hall. rewrite support_array_total.
  destruct y_true as [|c y]; [congruence|].
  inversion Hall as [|? ? Hc _]; subst. simpl.
  apply Nat.ltb_lt in Hc. rewrite Hc. simpl. lia.
Qed.

Lemma support_zero (y_true : list nat) (K : nat) :
  Forall (fun c => K <= c) y_true ->
  list_sum (support_array y_true K) = 0.
Proof.
  intros Hall. rewrite support_array_total.
  induction Hall as [|c y Hc _ IH]; simpl; [reflexivity|].
  apply Nat.ltb_ge in Hc. rewrite Hc. exact IH.
Qed.

Lemma support_zero_inv (y_true : list nat) (K : nat) :
  list_sum (support_array y_true K) = 0 ->
  Forall (fun c => K <= c) y_true.
Proof.
  rewrite support_array_total.
  induction y_true as [|c y IH]; simpl; intros H; constructor.
  - destruct (Nat.ltb_spec c K); [simpl in H; lia | assumption].
  - apply IH. destruct (c <? K); simpl in H; lia.
Qed.

Lemma nth_error_combine_inv {A B : Type} (la : list A) (lb : list B)
    (n : nat) (a : A) (b : B) :
  nth_error (combine la lb) n = Some (a, b) ->
  nth_error la n = Some a /\ nth_error lb n = Some b.
Proof.
  revert lb n.
  induction la as [|x la IH]; intros [|y lb] [|n]; simpl; try discriminate.
  - intros H. inversion H. auto.
  - apply IH.
Qed.

Lemma nth_error_map_seq_inv {A : Type} (f : nat -> A) (K n : nat) (x : A) :
  nth_error (map f (seq 0 K)) n = Some x -> n < K /\ x = f n.
Proof.
  intros H.
  assert (Hlt : n < K).
  { assert (Hsome : nth_error (map f (seq 0 K)) n <> None) by congruence.
    apply nth_error_Some in Hsome.
    now rewrite length_map, length_seq in Hsome. }
  split; [exact Hlt|].
  rewrite nth_error_map in H.
  rewrite nth_error_seq in H.
  apply Nat.ltb_lt in Hlt. rewrite Hlt in H. simpl in H. congruence.
Qed.

Lemma class_metric_at_sound (y_true y_pred : list nat) (c : nat) :
  let m := class_metric_at y_true y_pred c in
  in_unit_interval (precision m) /\
  in_unit_interval (recall m) /\
  in_unit_interval (f1_score m) /\
  (sklearn.pred_sum y_pred c = 0 -> precision m = 0%Q) /\
  (support m = 0 -> recall m = 0%Q) /\
  ((precision m == 0)%Q -> (recall m == 0)%Q -> f1_score m = 0%Q).
Proof.
  simpl.
  pose proof (prf_divide_bounds _ _ (tp_sum_le_pred_sum y_true y_pred c)) as Hp.
  pose proof (prf_divide_bounds _ _ (tp_sum_le_true_sum y_true y_pred c)) as Hr.
  repeat split; try (apply Hp); try (apply Hr).
  - apply (f_score_bounds _ _ Hp Hr).
  - apply (f_score_bounds _ _ Hp Hr).
  - intros ->. reflexivity.
  - intros ->. reflexivity.
  - intros H1 H2. now apply f_score_zero.
Qed.

Lemma overall_of_finite (y_true y_pred : list nat) (K : nat) :
  K <> 0 ->
  let o := overall_of y_true y_pred K in
  is_finite (macro_precision o) /\ is_finite (macro_recall o) /\
  is_finite (macro_f1_score o) /\ is_finite (weighted_precision o) /\
  is_finite (weighted_recall o) /\ is_finite (weighted_f1_score o).
Proof.
  intros HK. destruct K as [|K]; [congruence|].
  simpl. repeat split.
Qed.

(** ** Numeric safety of the per-class metrics *)

(** C1: for aligned label sequences, every precision, recall and f1_score
    that calculate_metrics stores lies in [0,1]; precision is exactly 0 for a
    class that is never predicted, recall is exactly 0 for a class of zero
    support, f1_score is exactly 0 when precision and recall are both 0; and
    all six aggregate fields are finite (none is NaN).  Metrics are produced
    whenever the sequences are non-empty with true labels in [0..K-1]. *)
Theorem per_class_metrics_within_unit_interval
    (self : Evaluation) (generator : keras.DirectoryIterator)
    (y_pred : list nat) :
  self_valid_generator self = Some generator ->
  NoDup (keys (keras.class_indices generator)) ->
  length (keras.classes generator) = length y_pred ->
  let y_true := keras.classes generator in
  let K := length (keras.class_indices generator) in
  (y_true <> [] -> Forall (fun c => c < K) y_true ->
   snd (calculate_metrics y_pred self) = Ok tt)
  /\
  (forall self', calculate_metrics y_pred self = (self', Ok tt) ->
   exists d o,
     self_class_metrics self' = Some d /\
     self_overall_metrics self' = Some o /\
     length d = K /\
     (forall c label m, nth_error d c = Some (label, m) ->
        nth_error (keys (keras.class_indices generator)) c = Some label /\
        support m = sklearn.true_sum y_true c /\
        in_unit_interval (precision m) /\
        in_unit_interval (recall m) /\
        in_unit_interval (f1_score m) /\
        (sklearn.pred_sum y_pred c = 0 -> precision m = 0%Q) /\
        (support m = 0 -> recall m = 0%Q) /\
        ((precision m == 0)%Q -> (recall m == 0)%Q -> f1_score m = 0%Q)) /\
     is_finite (macro_precision o) /\ is_finite (macro_recall o) /\
     is_finite (macro_f1_score o) /\ is_finite (weighted_precision o) /\
     is_finite (weighted_recall o) /\ is_finite (weighted_f1_score o)).
Proof.
  intros Hg Hnd Hlen y_true K.
  rewrite (calculate_metrics_aligned self generator y_pred Hg Hlen).
  fold y_true. fold K.
  destruct (Nat.eqb_spec (list_sum (support_array y_true K)) 0) as [Hz|Hnz].
  - split.
    + intros Hne Hall. exfalso.
      exact (support_positive y_true K Hne Hall Hz).
    + intros self' H. discriminate H.
  - split; [reflexivity|].
    intros self' H. inversion H; subst self'; clear H.
    exists (combine (keys (keras.class_indices generator))
              (map (class_metric_at y_true y_pred) (seq 0 K))),
           (overall_of y_true y_pred K).
    assert (HK : length (keys (keras.class_indices generator)) = K)
      by (unfold keys; apply length_map).
    split.
    { simpl. f_equal. rewrite <- HK.
      apply fill_class_metrics_NoDup. exact Hnd. }
    split; [reflexivity|].
    split.
    { rewrite length_combine, length_map, length_seq, HK. apply Nat.min_id. }
    split.
    { intros c label m Hnth.
      apply nth_error_combine_inv in Hnth. destruct Hnth as [Hlabel Hm].
      apply nth_error_map_seq_inv in Hm. destruct Hm as [_ ->].
      split; [exact Hlabel|]. split; [reflexivity|].
      apply class_metric_at_sound. }
    apply overall_of_finite.
    intros HK0. apply Hnz. unfold support_array. rewrite HK0. reflexivity.
Qed.

Lemma NoDup_cat_dog_fish : NoDup cat_dog_fish.
Proof.
  unfold cat_dog_fish.
  repeat constructor; simpl; intuition discriminate.
Defined.

Lemma per_class_metrics_within_unit_interval_witness :
  snd (calculate_metrics [0; 1; 1; 2; 2]
         (sample_evaluation cat_dog_fish [0; 0; 1; 1; 2])) = Ok tt.
Proof.
  apply (per_class_metrics_within_unit_interval
           (sample_evaluation cat_dog_fish [0; 0; 1; 1; 2])
           (sample_generator cat_dog_fish [0; 0; 1; 1; 2])
           [0; 1; 1; 2; 2]).
  - reflexivity.
  - exact NoDup_cat_dog_fish.
  - reflexivity.
  - discriminate.
  - simpl. repeat constructor.
Defined.

(** ** Weighted aggregates *)

Lemma multiply_map {A : Type} (f : A -> Q) (g : A -> nat) (l : list A) :
  np.multiply (map f l) (map g l) = map (fun c => (f c * Qnat (g c))%Q) l.
Proof.
  induction l as [|x l IH]; simpl; [reflexivity|]. now rewrite IH.
Qed.

Lemma map_snd_combine {A B : Type} (la : list A) (lb : list B) :
  length la = length lb -> map snd (combine la lb) = lb.
Proof.
  revert lb. induction la as [|a la IH]; intros [|b lb]; simpl;
    try discriminate; [reflexivity|].
  intros H. f_equal. apply IH. lia.
Qed.

Lemma weighted_total_combine (metric : ClassMetric -> Q)
    (class_labels : list string) (y_true y_pred : list nat) :
  let K := length class_labels in
  weighted_total metric
    (combine class_labels (map (class_metric_at y_true y_pred) (seq 0 K)))
  = np.sum (np.multiply
              (map (fun c => metric (class_metric_at y_true y_pred c))
                   (seq 0 K))
              (support_array y_true K)).
Proof.
  intros K. unfold weighted_total, support_array.
  rewrite multiply_map.
  rewrite <- (map_map snd (fun m => (metric m * Qnat (support m))%Q)).
  rewrite map_snd_combine by (now rewrite length_map, length_seq).
  rewrite map_map. reflexivity.
Qed.

Lemma total_support_combine
    (class_labels : list string) (y_true y_pred : list nat) :
  let K := length class_labels in
  total_support
    (combine class_labels (map (class_metric_at y_true y_pred) (seq 0 K)))
  = list_sum (support_array y_true K).
Proof.
  intros K. unfold total_support, support_array.
  rewrite <- (map_map snd support).
  rewrite map_snd_combine by (now rewrite length_map, length_seq).
  rewrite map_map. reflexivity.
Qed.

Lemma support_nonzero_of_exists (y_true : list nat) (K : nat) :
  Exists (fun c => c < K) y_true -> list_sum (support_array y_true K) <> 0.
Proof.
  intros Hex Hz. apply support_zero_inv in Hz.
  apply Exists_exists in Hex. destruct Hex as [c [Hin Hlt]].
  rewrite Forall_forall in Hz. specialize (Hz c Hin). lia.
Qed.

(** C3 (amended): when some class has positive support, each weighted
    aggregate equals sum(metric[c] * support[c]) / sum(support[c]) over the
    stored per-class entries; when every class has support 0, np.average
    raises ZeroDivisionError and overall_metrics is not assigned. *)
Theorem weighted_aggregate_formula
    (self : Evaluation) (generator : keras.DirectoryIterator)
    (y_pred : list nat) :
  self_valid_generator self = Some generator ->
  NoDup (keys (keras.class_indices generator)) ->
  length (keras.classes generator) = length y_pred ->
  let y_true := keras.classes generator in
  let K := length (keras.class_indices generator) in
  let run := calculate_metrics y_pred self in
  (Exists (fun c => c < K) y_true ->
   exists d o,
     snd run = Ok tt /\
     self_class_metrics (fst run) = Some d /\
     self_overall_metrics (fst run) = Some o /\
     total_support d <> 0 /\
     weighted_precision o
       = Fin (weighted_total precision d / Qnat (total_support d))%Q /\
     weighted_recall o
       = Fin (weighted_total recall d / Qnat (total_support d))%Q /\
     weighted_f1_score o
       = Fin (weighted_total f1_score d / Qnat (total_support d))%Q)
  /\
  (Forall (fun c => K <= c) y_true ->
   exists d,
     snd run = Raise ZeroDivisionError /\
     self_class_metrics (fst run) = Some d /\
     total_support d = 0 /\
     self_overall_metrics (fst run) = self_overall_metrics self).
Proof.
  intros Hg Hnd Hlen y_true K run. subst run.
  rewrite (calculate_metrics_aligned self generator y_pred Hg Hlen).
  fold y_true. fold K. unfold with_class_metrics. fold y_true.
  assert (HK : length (keys (keras.class_indices generator)) = K)
    by (unfold keys; apply length_map).
  rewrite (fill_class_metrics_NoDup _ y_true y_pred Hnd).
  rewrite HK.
  assert (Hts : total_support
                  (combine (keys (keras.class_indices generator))
                     (map (class_metric_at y_true y_pred) (seq 0 K)))
                = list_sum (support_array y_true K)).
  { rewrite <- HK. apply total_support_combine. }
  split.
  - intros Hex. apply support_nonzero_of_exists in Hex.
    destruct (Nat.eqb_spec (list_sum (support_array y_true K)) 0)
      as [Hz|_]; [contradiction|].
    eexists. eexists.
    split; [reflexivity|].
    split; [reflexivity|].
    split; [reflexivity|].
    split; [rewrite Hts; exact Hex|].
    rewrite Hts.
    repeat split; simpl; unfold precision_array, recall_array, f1_array;
      rewrite <- HK, weighted_total_combine; reflexivity.
  - intros Hall. apply support_zero in Hall.
    rewrite Hall. simpl.
    eexists. split; [reflexivity|].
    split; [reflexivity|].
    split; [rewrite Hts; exact Hall | reflexivity].
Qed.

Lemma weighted_aggregate_formula_witness :
  exists d o,
    self_class_metrics
      (fst (calculate_metrics [0; 1; 1; 2; 2]
              (sample_evaluation cat_dog_fish [0; 0; 1; 1; 2]))) = Some d /\
    self_overall_metrics
      (fst (calculate_metrics [0; 1; 1; 2; 2]
              (sample_evaluation cat_dog_fish [0; 0; 1; 1; 2]))) = Some o /\
    weighted_precision o
      = Fin (weighted_total precision d / Qnat (total_support d))%Q.
Proof.
  destruct (proj1 (weighted_aggregate_formula
                     (sample_evaluation cat_dog_fish [0; 0; 1; 1; 2])
                     (sample_generator cat_dog_fish [0; 0; 1; 1; 2])
                     [0; 1; 1; 2; 2]
                     eq_refl NoDup_cat_dog_fish eq_refl))
    as [d [o [_ [Hd [Ho [_ [Hw _]]]]]]].
  - apply Exists_cons_hd. simpl. lia.
  - exists d, o. auto.
Defined.

(** C3, as stated, fails: with three classes and no samples every support
    is 0, and no weighted aggregate is produced (ZeroDivisionError is raised
    and overall_metrics stays unassigned) instead of the value 0. *)
Lemma weighted_aggregate_degenerate_counterexample :
  let run := calculate_metrics [] (sample_evaluation cat_dog_fish []) in
  snd run = Raise ZeroDivisionError /\
  self_overall_metrics (fst run) = None /\
  ~ (exists o, self_overall_metrics (fst run) = Some o /\
               weighted_precision o = Fin 0).
Proof.
  vm_compute. split; [reflexivity|]. split; [reflexivity|].
  intros [o [H _]]. discriminate H.
Qed.

(** ** Errors *)

Lemma Forall_ge_or_Exists_lt (K : nat) (l : list nat) :
  Forall (fun c => K <= c) l \/ Exists (fun c => c < K) l.
Proof.
  induction l as [|c l [IH|IH]].
  - left. constructor.
  - destruct (Nat.lt_ge_cases c K) as [Hlt|Hge].
    + right. now apply Exists_cons_hd.
    + left. now constructor.
  - right. now apply Exists_cons_tl.
Qed.

(** C6 (amended): sequences of different lengths make calculate_metrics
    raise ValueError before any attribute is assigned; sequences of one
    length raise no error exactly when some true label lies in [0..K-1],
    whether or not other labels lie outside that range, and raise
    ZeroDivisionError exactly when no true label does (in particular for
    empty input).  Whenever it raises on an object whose overall_metrics is
    unassigned, a following save_score raises AttributeError and leaves the
    disk untouched. *)
Theorem calculate_metrics_errors
    (self : Evaluation) (generator : keras.DirectoryIterator)
    (y_pred : list nat) :
  self_valid_generator self = Some generator ->
  let y_true := keras.classes generator in
  let K := length (keras.class_indices generator) in
  let run := calculate_metrics y_pred self in
  (length y_true <> length y_pred -> run = (self, Raise ValueError))
  /\
  (length y_true = length y_pred ->
   (snd run = Ok tt <-> Exists (fun c => c < K) y_true) /\
   (snd run = Raise ZeroDivisionError <-> Forall (fun c => K <= c) y_true))
  /\
  (forall (iterencode : Scores -> list string) (fs : FS),
     self_overall_metrics self = None -> snd run <> Ok tt ->
     save_score iterencode (fst run) fs = Raise AttributeError).
Proof.
  intros Hg y_true K run.
  assert (Hcases :
    length y_true = length y_pred ->
    (Exists (fun c => c < K) y_true /\ snd run = Ok tt) \/
    (Forall (fun c => K <= c) y_true /\
     snd run = Raise ZeroDivisionError /\
     self_overall_metrics (fst run) = self_overall_metrics self)).
  { intros Hlen. subst run.
    rewrite (calculate_metrics_aligned self generator y_pred Hg Hlen).
    fold y_true. fold K.
    destruct (Nat.eqb_spec (list_sum (support_array y_true K)) 0) as [Hz|Hnz].
    - right. split; [now apply support_zero_inv|]. split; reflexivity.
    - left. split; [|reflexivity].
      destruct (Forall_ge_or_Exists_lt K y_true) as [Hall|Hex];
        [|exact Hex].
      exfalso. apply Hnz. now apply support_zero. }
  assert (Hexcl : Exists (fun c => c < K) y_true ->
                  Forall (fun c => K <= c) y_true -> False).
  { intros Hex Hall. apply Exists_exists in Hex.
    destruct Hex as [c [Hin Hlt]].
    rewrite Forall_forall in Hall. specialize (Hall c Hin). lia. }
  split; [|split].
  - intros Hlen. subst run.
    now apply calculate_metrics_length_mismatch with (generator := generator).
  - intros Hlen. destruct (Hcases Hlen) as [[Hex Hok]|[Hall [Herr _]]].
    + split; split; intros H; try assumption.
      * rewrite Hok in H. discriminate H.
      * exfalso. exact (Hexcl Hex H).
    + split; split; intros H; try assumption.
      * rewrite Herr in H. discriminate H.
      * exfalso. exact (Hexcl H Hall).
  - intros iterencode fs Hnone Hfail.
    assert (Hov : self_overall_metrics (fst run) = None).
    { destruct (Nat.eq_dec (length y_true) (length y_pred)) as [Hlen|Hlen].
      - destruct (Hcases Hlen) as [[_ Hok]|[_ [_ Hsame]]];
          [contradiction | now rewrite Hsame].
      - subst run.
        rewrite (calculate_metrics_length_mismatch self generator y_pred
                   Hg Hlen).
        exact Hnone. }
    unfold save_score. rewrite Hov.
    destruct (self_score (fst run)); [|reflexivity].
    destruct (self_confusion_matrix (fst run)); [|reflexivity].
    destruct (self_valid_generator (fst run)); [|reflexivity].
    destruct (self_class_metrics (fst run)); reflexivity.
Qed.

Lemma calculate_metrics_errors_witness :
  calculate_metrics [0; 1] (sample_evaluation cat_dog_fish [0; 0; 1; 1; 2])
  = (sample_evaluation cat_dog_fish [0; 0; 1; 1; 2], Raise ValueError).
Proof.
  apply (proj1 (calculate_metrics_errors
                  (sample_evaluation cat_dog_fish [0; 0; 1; 1; 2])
                  (sample_generator cat_dog_fish [0; 0; 1; 1; 2])
                  [0; 1] eq_refl)).
  simpl. lia.
Defined.

(** C6, as stated, fails: with three classes, a predicted label 5 lies
    outside [0..2], yet calculate_metrics raises nothing; and empty
    sequences, which match in length and hold no out-of-range label, raise
    ZeroDivisionError. *)
Lemma out_of_range_label_counterexample :
  Exists (fun c => 3 <= c) [0; 5] /\
  snd (calculate_metrics [0; 5] (sample_evaluation cat_dog_fish [0; 1]))
    = Ok tt /\
  self_confusion_matrix
    (fst (calculate_metrics [0; 5] (sample_evaluation cat_dog_fish [0; 1])))
    = Some [[1; 0; 0]; [0; 0; 1]; [0; 0; 0]] /\
  snd (calculate_metrics [] (sample_evaluation cat_dog_fish []))
    = Raise ZeroDivisionError.
Proof.
  split; [apply Exists_cons_tl, Exists_cons_hd; lia|].
  vm_compute. repeat split.
Qed.

(** ** Determinism *)

(** C9: calculate_metrics is a function of the label sequences: running it
    a second time on the object left by the first run, with the same
    predicted labels, returns the same outcome and leaves every attribute
    (confusion matrix, per-class metrics, aggregate metrics) as it is; and
    two objects that hold the same validation generator obtain the same
    outcome and, on success, the same three metric attributes. *)
Theorem calculate_metrics_idempotent (self : Evaluation) (y_pred : list nat) :
  calculate_metrics y_pred (fst (calculate_metrics y_pred self))
  = calculate_metrics y_pred self
  /\
  (forall other : Evaluation,
     self_valid_generator other = self_valid_generator self ->
     snd (calculate_metrics y_pred other) = snd (calculate_metrics y_pred self)
     /\
     (snd (calculate_metrics y_pred self) = Ok tt ->
      metrics_of (fst (calculate_metrics y_pred other))
      = metrics_of (fst (calculate_metrics y_pred self)))).
Proof.
  destruct (self_valid_generator self) as [generator|] eqn:Hg.
  - destruct (Nat.eq_dec (length (keras.classes generator)) (length y_pred))
      as [Hlen|Hlen].
    + split.
      * rewrite (calculate_metrics_aligned self generator y_pred Hg Hlen).
        cbv zeta.
        destruct (list_sum _ =? 0) eqn:E; cbv [fst].
        -- rewrite (calculate_metrics_aligned _ generator y_pred); auto.
           cbv zeta. rewrite E. reflexivity.
        -- rewrite (calculate_metrics_aligned _ generator y_pred); auto.
           cbv zeta. rewrite E. reflexivity.
      * intros other Hother.
        rewrite (calculate_metrics_aligned self generator y_pred Hg Hlen).
        rewrite (calculate_metrics_aligned other generator y_pred Hother Hlen).
        cbv zeta.
        destruct (list_sum _ =? 0); split; try reflexivity.
        intros H. discriminate H.
    + split.
      * rewrite (calculate_metrics_length_mismatch self generator y_pred
                   Hg Hlen).
        simpl.
        apply (calculate_metrics_length_mismatch self generator y_pred
                 Hg Hlen).
      * intros other Hother.
        rewrite (calculate_metrics_length_mismatch self generator y_pred
                   Hg Hlen).
        rewrite (calculate_metrics_length_mismatch other generator y_pred
                   Hother Hlen).
        split; [reflexivity|]. intros H. discriminate H.
  - split.
    + rewrite (calculate_metrics_no_generator self y_pred Hg). simpl.
      apply (calculate_metrics_no_generator self y_pred Hg).
    + intros other Hother.
      rewrite (calculate_metrics_no_generator self y_pred Hg).
      rewrite (calculate_metrics_no_generator other y_pred Hother).
      split; [reflexivity|]. intros H. discriminate H.
Qed.

Lemma calculate_metrics_idempotent_witness :
  metrics_of (fst (calculate_metrics [0; 1; 1; 2; 2]
                     (set_overall_metrics
                        (overall_of [] [] 0)
                        (sample_evaluation cat_dog_fish [0; 0; 1; 1; 2]))))
  = metrics_of (fst (calculate_metrics [0; 1; 1; 2; 2]
                       (sample_evaluation cat_dog_fish [0; 0; 1; 1; 2]))).
Proof.
  apply (proj2 (calculate_metrics_idempotent
                  (sample_evaluation cat_dog_fish [0; 0; 1; 1; 2])
                  [0; 1; 1; 2; 2])
               (set_overall_metrics
                  (overall_of [] [] 0)
                  (sample_evaluation cat_dog_fish [0; 0; 1; 1; 2]))
               eq_refl).
  reflexivity.
Defined.

(** ** The worked example *)

(** C5: for the classes cat, dog, fish, true labels [0,0,1,1,2] and
    predicted labels [0,1,1,2,2], calculate_metrics stores the confusion
    matrix [[1,1,0],[0,1,1],[0,0,1]]; cat: precision 1, recall 1/2, f1 2/3,
    support 2; dog: precision 1/2, recall 1/2, f1 1/2, support 2; fish:
    precision 1/2, recall 1, f1 2/3, support 1; macro precision 2/3 and
    weighted precision 7/10 (2/3 is within 0.0005 of 0.667). *)
Theorem cat_dog_fish_example :
  let run := calculate_metrics [0; 1; 1; 2; 2]
               (sample_evaluation cat_dog_fish [0; 0; 1; 1; 2]) in
  snd run = Ok tt /\
  self_confusion_matrix (fst run)
    = Some [[1; 1; 0]; [0; 1; 1]; [0; 0; 1]] /\
  exists cat dog fish o macro weighted,
    self_class_metrics (fst run)
      = Some [("cat"%string, cat); ("dog"%string, dog);
              ("fish"%string, fish)] /\
    ((precision cat == 1) /\ (recall cat == 1 # 2) /\
     (f1_score cat == 2 # 3) /\ (support cat = 2)%nat /\
     (precision dog == 1 # 2) /\ (recall dog == 1 # 2) /\
     (f1_score dog == 1 # 2) /\ (support dog = 2)%nat /\
     (precision fish == 1 # 2) /\ (recall fish == 1) /\
     (f1_score fish == 2 # 3) /\ (support fish = 1)%nat)%Q /\
    self_overall_metrics (fst run) = Some o /\
    macro_precision o = Fin macro /\
    weighted_precision o = Fin weighted /\
    (macro == 2 # 3)%Q /\ (weighted == 7 # 10)%Q /\
    (Qabs ((2 # 3) - 0.667) <= 0.0005)%Q.
Proof.
  vm_compute.
  split; [reflexivity|]. split; [reflexivity|].
  do 6 eexists.
  split; [reflexivity|].
  split; [repeat split|].
  split; [reflexivity|].
  split; [reflexivity|].
  split; [reflexivity|].
  split; [reflexivity|].
  split; [reflexivity|].
  discriminate.
Qed.

(** ** The confusion matrix *)

Lemma in_unique_labels (y_true y_pred : list nat) (c : nat) :
  In c (sklearn.unique_labels y_true y_pred) <-> In c (y_true ++ y_pred).
Proof.
  unfold sklearn.unique_labels. rewrite filter_In, in_seq. split.
  - intros [_ Hex]. apply existsb_exists in Hex.
    destruct Hex as [x [Hin Heq]]. apply Nat.eqb_eq in Heq. now subst.
  - intros Hin. split.
    + pose proof (proj1 (list_max_le (y_true ++ y_pred)
                           (list_max (y_true ++ y_pred))) (Nat.le_refl _))
        as Hall.
      rewrite Forall_forall in Hall. specialize (Hall c Hin). lia.
    + apply existsb_exists. exists c. split; [exact Hin|].
      apply Nat.eqb_refl.
Qed.

Lemma NoDup_unique_labels (y_true y_pred : list nat) :
  NoDup (sklearn.unique_labels y_true y_pred).
Proof. unfold sklearn.unique_labels. apply NoDup_filter, seq_NoDup. Qed.

Lemma list_sum_map_add {A : Type} (f g : A -> nat) (l : list A) :
  list_sum (map (fun x => f x + g x) l)
  = list_sum (map f l) + list_sum (map g l).
Proof. induction l as [|x l IH]; simpl; lia. Qed.

Lemma list_sum_indicator (x : nat) (l : list nat) :
  NoDup l -> In x l ->
  list_sum (map (fun j => if x =? j then 1 else 0) l) = 1.
Proof.
  induction l as [|y l IH]; simpl; intros Hnd Hin; [contradiction|].
  inversion Hnd as [|? ? Hnotin Hnd']; subst.
  destruct Hin as [->|Hin].
  - rewrite Nat.eqb_refl.
    assert (Hzero : list_sum (map (fun j => if x =? j then 1 else 0) l) = 0).
    { clear IH Hnd Hnd'. induction l as [|z l IHl]; simpl; [reflexivity|].
      destruct (Nat.eqb_spec x z) as [->|_].
      - exfalso. apply Hnotin. now left.
      - apply IHl. intros H. apply Hnotin. now right. }
    lia.
  - destruct (Nat.eqb_spec x y) as [->|_]; [contradiction|].
    simpl. now apply IH.
Qed.

(** Counting the elements of [samples] by a key that ranges over [labels]
    counts every element once. *)
Lemma list_sum_partition {A : Type} (key : A -> nat) (labels : list nat)
    (samples : list A) :
  NoDup labels ->
  (forall s, In s samples -> In (key s) labels) ->
  list_sum (map (fun j => length (filter (fun s => key s =? j) samples))
                labels)
  = length samples.
Proof.
  intros Hnd. induction samples as [|s samples IH]; intros Hin.
  - simpl. induction labels as [|j labels IHl]; simpl; [reflexivity|].
    inversion Hnd; subst. now apply IHl.
  - transitivity
      (list_sum (map (fun j => (if key s =? j then 1 else 0)
                               + length (filter (fun s => key s =? j) samples))
                     labels)).
    + f_equal. apply map_ext. intros j. simpl.
      destruct (key s =? j); reflexivity.
    + rewrite list_sum_map_add, IH.
      * rewrite list_sum_indicator; [reflexivity | exact Hnd |].
        apply Hin. now left.
      * intros s' Hs'. apply Hin. now right.
Qed.

Lemma filter_andb {A : Type} (p q : A -> bool) (l : list A) :
  filter (fun x => p x && q x) l = filter q (filter p l).
Proof.
  induction l as [|x l IH]; simpl; [reflexivity|].
  destruct (p x); simpl; [destruct (q x)|]; now rewrite IH.
Qed.

Lemma count_fst_combine (y_true y_pred : list nat) (c : nat) :
  length y_true = length y_pred ->
  length (filter (fun s => fst s =? c) (combine y_true y_pred))
  = sklearn.true_sum y_true c.
Proof.
  unfold sklearn.true_sum. revert y_pred.
  induction y_true as [|t y_true IH]; intros [|p y_pred]; simpl;
    try discriminate; [reflexivity|].
  intros Hlen. injection Hlen as Hlen. specialize (IH y_pred Hlen).
  destruct (Nat.eq_dec t c) as [->|Hne].
  - rewrite Nat.eqb_refl. simpl. now rewrite IH.
  - apply Nat.eqb_neq in Hne. now rewrite Hne.
Qed.

Lemma cm_row_total (y_true y_pred : list nat) (i : nat) :
  length y_true = length y_pred ->
  list_sum (map (fun j => sklearn.count_pairs i j (combine y_true y_pred))
                (sklearn.unique_labels y_true y_pred))
  = sklearn.true_sum y_true i.
Proof.
  intros Hlen. unfold sklearn.count_pairs.
  rewrite <- (count_fst_combine y_true y_pred i Hlen).
  rewrite <- (list_sum_partition snd (sklearn.unique_labels y_true y_pred)
                (filter (fun s => fst s =? i) (combine y_true y_pred))).
  - f_equal. apply map_ext. intros j. now rewrite filter_andb.
  - apply NoDup_unique_labels.
  - intros [a b] Hin. apply filter_In in Hin. destruct Hin as [Hin _].
    apply in_combine_r in Hin. apply in_unique_labels, in_or_app. now right.
Qed.

Lemma cm_of_all_cells (y_true y_pred : list nat) :
  length y_true = length y_pred ->
  all_cells (cm_of y_true y_pred) = length y_true.
Proof.
  intros Hlen. unfold all_cells, cm_of. rewrite map_map.
  transitivity
    (list_sum (map (fun i => length (filter (fun s => fst s =? i)
                                       (combine y_true y_pred)))
                   (sklearn.unique_labels y_true y_pred))).
  - f_equal. apply map_ext. intros i.
    rewrite (cm_row_total y_true y_pred i Hlen).
    symmetry. now apply count_fst_combine.
  - rewrite (list_sum_partition fst).
    + rewrite length_combine, <- Hlen. apply Nat.min_id.
    + apply NoDup_unique_labels.
    + intros [a b] Hin. apply in_combine_l in Hin.
      apply in_unique_labels, in_or_app. now left.
Qed.

Lemma cm_of_row_sum (y_true y_pred : list nat) (i label : nat) :
  length y_true = length y_pred ->
  nth_error (sklearn.unique_labels y_true y_pred) i = Some label ->
  row_sum (cm_of y_true y_pred) i = sklearn.true_sum y_true label.
Proof.
  intros Hlen Hnth. unfold row_sum, cm_of.
  rewrite <- (cm_row_total y_true y_pred label Hlen).
  f_equal.
  apply nth_error_nth.
  rewrite nth_error_map, Hnth. reflexivity.
Qed.

Lemma calculate_metrics_confusion_matrix
    (self : Evaluation) (generator : keras.DirectoryIterator)
    (y_pred : list nat) :
  self_valid_generator self = Some generator ->
  length (keras.classes generator) = length y_pred ->
  self_confusion_matrix (fst (calculate_metrics y_pred self))
  = Some (cm_of (keras.classes generator) y_pred).
Proof.
  intros Hg Hlen.
  rewrite (calculate_metrics_aligned self generator y_pred Hg Hlen).
  cbv zeta. destruct (list_sum _ =? 0); reflexivity.
Qed.

(** C2: the cells of the stored confusion matrix always add up to the
    number of samples, and row i adds up to the support of the i-th label
    that occurs in the data.  That label is class i only when every class
    below it occurs too: for the classes cat, dog, fish with true and
    predicted labels [0,2], the matrix is [[1,0],[0,1]], row 1 adds up to 1
    while the support of class 1 (dog) is 0, and there is no row 2 while the
    support of class 2 (fish) is 1. *)
Theorem confusion_matrix_sums :
  (forall (self : Evaluation) (generator : keras.DirectoryIterator)
          (y_pred : list nat),
     self_valid_generator self = Some generator ->
     length (keras.classes generator) = length y_pred ->
     exists cm,
       self_confusion_matrix (fst (calculate_metrics y_pred self)) = Some cm /\
       all_cells cm = length y_pred /\
       forall i label,
         nth_error (sklearn.unique_labels (keras.classes generator) y_pred) i
           = Some label ->
         row_sum cm i = sklearn.true_sum (keras.classes generator) label)
  /\
  (let run := calculate_metrics [0; 2] (sample_evaluation cat_dog_fish [0; 2])
   in
   exists cm dog fish,
     snd run = Ok tt /\
     self_confusion_matrix (fst run) = Some cm /\
     cm = [[1; 0]; [0; 1]] /\
     option_map (fun d => nth_error d 1) (self_class_metrics (fst run))
       = Some (Some ("dog"%string, dog)) /\
     option_map (fun d => nth_error d 2) (self_class_metrics (fst run))
       = Some (Some ("fish"%string, fish)) /\
     row_sum cm 1 = 1 /\ support dog = 0 /\
     row_sum cm 2 = 0 /\ support fish = 1).
Proof.
  split.
  - intros self generator y_pred Hg Hlen.
    exists (cm_of (keras.classes generator) y_pred).
    split; [now apply calculate_metrics_confusion_matrix|].
    split; [rewrite <- Hlen; now apply cm_of_all_cells|].
    intros i label Hnth. now apply cm_of_row_sum.
  - vm_compute. do 3 eexists. repeat split.
Qed.

Lemma confusion_matrix_sums_witness :
  exists cm,
    self_confusion_matrix
      (fst (calculate_metrics [0; 1; 1; 2; 2]
              (sample_evaluation cat_dog_fish [0; 0; 1; 1; 2]))) = Some cm /\
    all_cells cm = 5.
Proof.
  destruct (proj1 confusion_matrix_sums
              (sample_evaluation cat_dog_fish [0; 0; 1; 1; 2])
              (sample_generator cat_dog_fish [0; 0; 1; 1; 2])
              [0; 1; 1; 2; 2] eq_refl eq_refl) as [cm [Hcm [Hall _]]].
  exists cm. split; [exact Hcm | exact Hall].
Defined.

(** C4: the stored confusion matrix has one row and one column per label
    that occurs in the true or the predicted sequence, and cell (i, j) counts
    the samples whose true label is the i-th and whose predicted label is the
    j-th of these.  A class that occurs in neither sequence gets no row and
    no column: for the classes cat, dog, fish with true labels [0,0,2] and
    predicted labels [0,2,2] the matrix is [[1,1],[0,1]], 2 by 2 for K = 3,
    and its cell (1, 1) is 1 although no sample has true class 1. *)
Theorem confusion_matrix_shape :
  (forall (self : Evaluation) (generator : keras.DirectoryIterator)
          (y_pred : list nat),
     self_valid_generator self = Some generator ->
     length (keras.classes generator) = length y_pred ->
     let y_true := keras.classes generator in
     let labels := sklearn.unique_labels y_true y_pred in
     exists cm,
       self_confusion_matrix (fst (calculate_metrics y_pred self)) = Some cm /\
       length cm = length labels /\
       Forall (fun row => length row = length labels) cm /\
       forall i j a b,
         nth_error labels i = Some a -> nth_error labels j = Some b ->
         nth j (nth i cm []) 0
         = sklearn.count_pairs a b (combine y_true y_pred))
  /\
  (let y_true := [0; 0; 2] in
   let y_pred := [0; 2; 2] in
   let self := sample_evaluation cat_dog_fish y_true in
   let K := length cat_dog_fish in
   K = 3 /\
   Forall (fun c => c < K) y_true /\ Forall (fun c => c < K) y_pred /\
   snd (calculate_metrics y_pred self) = Ok tt /\
   self_confusion_matrix (fst (calculate_metrics y_pred self))
     = Some [[1; 1]; [0; 1]] /\
   sklearn.count_pairs 1 1 (combine y_true y_pred) = 0).
Proof.
  split.
  - intros self generator y_pred Hg Hlen y_true labels.
    exists (cm_of y_true y_pred).
    split; [now apply calculate_metrics_confusion_matrix|].
    unfold cm_of. fold labels.
    split; [apply length_map|].
    split.
    + apply Forall_forall. intros row Hin. apply in_map_iff in Hin.
      destruct Hin as [i [<- _]]. apply length_map.
    + intros i j a b Hi Hj.
      set (row := fun i => map (fun j => sklearn.count_pairs i j
                                           (combine y_true y_pred)) labels).
      assert (Hrow : nth i (map row labels) [] = row a).
      { apply nth_error_nth. rewrite nth_error_map, Hi. reflexivity. }
      rewrite Hrow. unfold row.
      apply nth_error_nth. rewrite nth_error_map, Hj. reflexivity.
  - vm_compute. repeat split; repeat constructor.
Qed.

Lemma confusion_matrix_shape_witness :
  exists cm,
    self_confusion_matrix
      (fst (calculate_metrics [0; 1; 1; 2; 2]
              (sample_evaluation cat_dog_fish [0; 0; 1; 1; 2]))) = Some cm /\
    length cm = 3.
Proof.
  destruct (proj1 confusion_matrix_shape
              (sample_evaluation cat_dog_fish [0; 0; 1; 1; 2])
              (sample_generator cat_dog_fish [0; 0; 1; 1; 2])
              [0; 1; 1; 2; 2] eq_refl eq_refl) as [cm [Hcm [Hlen _]]].
  exists cm. split; [exact Hcm | exact Hlen].
Defined.

(** ** The validation stream builder *)

Lemma flow_filepaths (datagen : keras.ImageDataGenerator)
    (tree : list (string * list string)) (target_size : list nat)
    (batch_size : nat) (interpolation : string) :
  keras.filepaths
    (keras.flow_from_directory datagen tree target_size batch_size
       interpolation)
  = concat (validation_partition (keras.validation_split datagen) tree).
Proof.
  unfold keras.flow_from_directory, validation_partition, enumerate. simpl.
  generalize 0.
  induction tree as [|[name files] tree IH]; intros start; simpl;
    [reflexivity|].
  now rewrite IH.
Qed.

(** C8 (amended): the builder partitions the dataset with the fraction 0.20
    that it fixes itself: the files it yields are, class by class, the
    leading floor(0.20 * n) of the n files, and neither the files, the true
    labels nor the class index change when the configured
    validation_split_fraction does. *)
Theorem valid_generator_fixed_split
    (disk : Disk) (self : Evaluation) (tree : list (string * list string)) :
  disk (training_data (self_config self)) = Some tree ->
  exists generator,
    _valid_generator disk self
      = (set_valid_generator generator self, Ok tt) /\
    keras.filepaths generator = concat (validation_partition 0.20 tree) /\
    keys (keras.class_indices generator) = map fst tree /\
    forall f : Q,
      _valid_generator disk
        (with_config (with_validation_split_fraction f (self_config self))
           self)
      = (set_valid_generator generator
           (with_config (with_validation_split_fraction f (self_config self))
              self), Ok tt).
Proof.
  intros Hdisk.
  eexists. split; [|split; [|split]].
  - unfold _valid_generator. rewrite Hdisk. reflexivity.
  - apply flow_filepaths.
  - simpl. unfold keys.
    assert (Hfst : forall (A B : Type) (la : list A) (lb : list B),
               length la = length lb -> map fst (combine la lb) = la).
    { intros A B la. induction la as [|a la IH]; intros [|b lb]; simpl;
        try discriminate; [reflexivity|].
      intros H. f_equal. apply IH. lia. }
    apply Hfst. now rewrite length_map, length_seq.
  - intros f. unfold _valid_generator. simpl. rewrite Hdisk. reflexivity.
Qed.

Lemma valid_generator_fixed_split_witness :
  exists generator,
    _valid_generator sample_disk (__init__ sample_config)
      = (set_valid_generator generator (__init__ sample_config), Ok tt) /\
    keras.filepaths generator = concat (validation_partition 0.20 sample_tree).
Proof.
  destruct (valid_generator_fixed_split sample_disk (__init__ sample_config)
              sample_tree eq_refl) as [generator [Hrun [Hfiles _]]].
  exists generator. split; [exact Hrun | exact Hfiles].
Defined.

(** C8, as stated, fails: with validation_split_fraction = 0.5 configured
    and two classes of ten images each, the builder yields the 2 + 2 files of
    the 0.20 partition, not the 5 + 5 files of the 0.5 partition. *)
Lemma configured_fraction_counterexample :
  validation_split_fraction sample_config = 0.5%Q /\
  (0 < 0.5 /\ 0.5 < 1)%Q /\
  exists generator,
    _valid_generator sample_disk (__init__ sample_config)
      = (set_valid_generator generator (__init__ sample_config), Ok tt) /\
    length (keras.filepaths generator) = 4 /\
    keras.classes generator = [0; 0; 1; 1] /\
    length (concat (validation_partition
                      (validation_split_fraction sample_config) sample_tree))
      = 10 /\
    keras.filepaths generator
      <> concat (validation_partition
                   (validation_split_fraction sample_config) sample_tree).
Proof.
  split; [reflexivity|]. split; [split; reflexivity|].
  eexists. split; [reflexivity|].
  split; [reflexivity|]. split; [reflexivity|]. split; [reflexivity|].
  intros H. apply (f_equal (@length string)) in H. vm_compute in H.
  discriminate H.
Qed.

(** ** The report writer *)

Lemma fs_write_same (path content : string) (fs : FS) :
  fs_write path content fs path = Some content.
Proof. unfold fs_write. now rewrite String.eqb_refl. Qed.

Lemma fs_write_other (path content p : string) (fs : FS) :
  p <> path -> fs_write path content fs p = fs p.
Proof.
  intros Hne. unfold fs_write.
  destruct (String.eqb_spec p path); [contradiction | reflexivity].
Qed.

Lemma append_assoc (a b c : string) :
  String.append (String.append a b) c = String.append a (String.append b c).
Proof. induction a as [|x a IH]; simpl; [reflexivity | now rewrite IH]. Qed.

Lemma append_empty_r (a : string) : String.append a EmptyString = a.
Proof. induction a as [|x a IH]; simpl; [reflexivity | now rewrite IH]. Qed.

Lemma last_cons {A : Type} (a d : A) (l : list A) :
  last (a :: l) d = last l a.
Proof.
  revert a d. induction l as [|x l IH]; intros a d; [reflexivity|].
  change (last (a :: x :: l) d) with (last (x :: l) d).
  now rewrite !IH.
Qed.

Section ReportWriterFacts.

Variable iterencode : Scores -> list string.

Lemma write_chunks_states (path written : string) (chunks : list string)
    (fs st : FS) :
  In st (write_chunks path written chunks fs) ->
  (exists done rest,
     st path = Some (String.append written done) /\
     String.append done rest
     = fold_right String.append EmptyString chunks) /\
  (forall p, p <> path -> st p = fs p).
Proof.
  revert written.
  induction chunks as [|chunk chunks IH]; simpl; intros written Hin;
    [contradiction|].
  destruct Hin as [<-|Hin].
  - split.
    + exists chunk, (fold_right String.append EmptyString chunks).
      split; [apply fs_write_same | reflexivity].
    + intros p Hp. now apply fs_write_other.
  - destruct (IH _ Hin) as [[done [rest [Hst Hsplit]]] Hother].
    split; [|exact Hother].
    exists (String.append chunk done), rest. split.
    + rewrite Hst. now rewrite append_assoc.
    + rewrite append_assoc. now rewrite Hsplit.
Qed.

Lemma write_chunks_final (path written : string) (chunks : list string)
    (fs : FS) :
  final_state (write_chunks path written chunks fs)
              (fs_write path written fs) path
  = Some (String.append written
            (fold_right String.append EmptyString chunks)).
Proof.
  unfold final_state. revert written.
  induction chunks as [|chunk chunks IH]; intros written.
  - simpl. rewrite append_empty_r. apply fs_write_same.
  - change (write_chunks path written (chunk :: chunks) fs)
      with (fs_write path (String.append written chunk) fs
              :: write_chunks path (String.append written chunk) chunks fs).
    rewrite last_cons, IH.
    simpl fold_right. now rewrite append_assoc.
Qed.

Lemma save_json_final (path : string) (data : Scores) (fs : FS) :
  final_state (save_json iterencode path data fs) fs path
  = Some (json_text iterencode data).
Proof.
  unfold save_json, json_text, final_state.
  rewrite last_cons.
  apply (write_chunks_final path EmptyString (iterencode data) fs).
Qed.

Lemma save_json_states (path : string) (data : Scores) (fs st : FS) :
  In st (save_json iterencode path data fs) ->
  (exists written rest,
     st path = Some written /\
     String.append written rest = json_text iterencode data) /\
  (forall p, p <> path -> st p = fs p).
Proof.
  unfold save_json. intros [<-|Hin].
  - split.
    + exists EmptyString, (json_text iterencode data).
      split; [apply fs_write_same | reflexivity].
    + intros p Hp. now apply fs_write_other.
  - destruct (write_chunks_states _ _ _ _ _ Hin)
      as [[done [rest [Hst Hsplit]]] Hother].
    split; [|exact Hother].
    exists done, rest. split; [exact Hst | exact Hsplit].
Qed.

(** Opening the file already breaks atomicity when a non-empty report is
    to replace a non-empty file. *)
Lemma save_json_not_atomic (path : string) (data : Scores) (fs : FS) :
  fs path <> Some EmptyString ->
  json_text iterencode data <> EmptyString ->
  ~ atomic_write path fs (json_text iterencode data)
      (save_json iterencode path data fs).
Proof.
  intros Hold Hnew Hatomic.
  destruct (Hatomic (fs_write path EmptyString fs)) as [H|H].
  - now left.
  - rewrite fs_write_same in H. apply Hold. now rewrite H.
  - rewrite fs_write_same in H. apply Hnew. congruence.
Qed.

End ReportWriterFacts.

(** C7 (amended): save_json writes the report in place.  Opening the path
    truncates the file; the document is then appended chunk by chunk.  Every
    state that can be observed holds at the path a prefix of the complete
    document (the empty one right after opening), the path holds the
    complete document when save_json returns, and no other path changes. *)
Theorem save_json_writes_in_place
    (iterencode : Scores -> list string) (path : string) (data : Scores)
    (fs : FS) :
  let states := save_json iterencode path data fs in
  (exists first, hd_error states = Some first /\
                 first path = Some EmptyString) /\
  final_state states fs path = Some (json_text iterencode data) /\
  (forall st, In st states ->
     (exists written rest,
        st path = Some written /\
        String.append written rest = json_text iterencode data) /\
     (forall p, p <> path -> st p = fs p)).
Proof.
  intros states. split; [|split].
  - exists (fs_write path EmptyString fs).
    split; [reflexivity | apply fs_write_same].
  - apply save_json_final.
  - intros st Hin. now apply save_json_states.
Qed.

Lemma save_json_writes_in_place_witness :
  fs_write "scores.json" EmptyString sample_fs "notes.txt"%string
  = sample_fs "notes.txt"%string.
Proof.
  apply (proj2 (proj2 (proj2 (save_json_writes_in_place sample_iterencode
                                "scores.json"
                                (scores_of (0.5%Q, 0.75%Q) [[1]]
                                   (sample_generator ["cat"%string] [0])
                                   [] (overall_of [0] [0] 1))
                                sample_fs))
                      (fs_write "scores.json" EmptyString sample_fs)
                      (or_introl eq_refl))).
  discriminate.
Defined.

(** C7, as stated, fails: when save_score replaces an earlier report, the
    first state that can be observed holds an empty file at scores.json,
    which is neither the earlier report nor the complete new one. *)
Lemma atomic_write_counterexample :
  exists states document,
    save_score sample_iterencode evaluated_sample sample_fs = Ok states /\
    final_state states sample_fs "scores.json"%string = Some document /\
    sample_fs "scores.json"%string = Some "previous report"%string /\
    (exists st, In st states /\ st "scores.json"%string = Some EmptyString) /\
    ~ atomic_write "scores.json" sample_fs document states.
Proof.
  eexists. eexists.
  split; [reflexivity|].
  split; [reflexivity|].
  split; [reflexivity|].
  split.
  - eexists. split; [left; reflexivity | reflexivity].
  - apply (save_json_not_atomic sample_iterencode "scores.json");
      discriminate.
Qed.

(** C10: save_score writes the report to the fixed relative path
    scores.json: whatever the configuration (its report_output_path
    included) and whatever the disk holds, the file at scores.json is first
    truncated, it holds the complete report when save_score returns, and no
    other path changes in any state on the way. *)
Theorem save_score_fixed_path
    (iterencode : Scores -> list string) (self : Evaluation) (fs : FS)
    (score : Q * Q) (cm : list (list nat))
    (generator : keras.DirectoryIterator) (d : dict ClassMetric)
    (o : OverallMetrics) :
  self_score self = Some score ->
  self_confusion_matrix self = Some cm ->
  self_valid_generator self = Some generator ->
  self_class_metrics self = Some d ->
  self_overall_metrics self = Some o ->
  let data := scores_of score cm generator d o in
  let states := save_json iterencode "scores.json" data fs in
  save_score iterencode self fs = Ok states /\
  (forall config,
     save_score iterencode (with_config config self) fs = Ok states) /\
  (exists first, hd_error states = Some first /\
                 first "scores.json"%string = Some EmptyString) /\
  final_state states fs "scores.json"%string
    = Some (json_text iterencode data) /\
  (forall st p, In st states -> p <> "scores.json"%string -> st p = fs p).
Proof.
  intros Hs Hcm Hg Hd Ho data states.
  split; [|split].
  - unfold save_score. rewrite Hs, Hcm, Hg, Hd, Ho. reflexivity.
  - intros config. unfold save_score, with_config. simpl.
    rewrite Hs, Hcm, Hg, Hd, Ho. reflexivity.
  - split; [|split].
    + exists (fs_write "scores.json" EmptyString fs).
      split; [reflexivity | apply fs_write_same].
    + apply save_json_final.
    + intros st p Hin Hp.
      exact (proj2 (save_json_states iterencode _ _ _ _ Hin) p Hp).
Qed.

Lemma save_score_fixed_path_witness :
  exists states,
    save_score sample_iterencode
      (with_config
         (with_report_output_path "artifacts/evaluation/other.json"
            sample_config)
         evaluated_sample)
      sample_fs = Ok states /\
    final_state states sample_fs "scores.json"%string = Some "{...}"%string /\
    final_state states sample_fs "artifacts/evaluation/other.json"%string
      = None.
Proof.
  destruct (save_score_fixed_path sample_iterencode evaluated_sample sample_fs
              _ _ _ _ _ eq_refl eq_refl eq_refl eq_refl eq_refl)
    as [_ [Hany [_ [Hfinal _]]]].
  eexists. split; [apply Hany|].
  split; [exact Hfinal | reflexivity].
Defined.

(** * Further properties of the evaluation component *)

(** ** Aggregates *)

Lemma sum_bounds (a : list Q) :
  Forall in_unit_interval a ->
  (0 <= np.sum a /\ np.sum a <= Qnat (length a))%Q.
Proof.
  induction 1 as [|x a [Hx0 Hx1] _ [IH0 IH1]]; simpl.
  - split; apply Qle_refl.
  - assert (Hs : (Qnat (S (length a)) == 1 + Qnat (length a))%Q).
    { unfold Qnat. rewrite Nat2Z.inj_succ, <- Z.add_1_l, inject_Z_plus.
      reflexivity. }
    rewrite Hs. split; lra.
Qed.

Lemma weighted_sum_bounds (a : list Q) (w : list nat) :
  Forall in_unit_interval a ->
  (0 <= np.sum (np.multiply a w)
   /\ np.sum (np.multiply a w) <= Qnat (list_sum w))%Q.
Proof.
  intros Ha. revert w.
  induction Ha as [|x a [Hx0 Hx1] _ IH]; intros w; simpl.
  - split; [apply Qle_refl | apply Qnat_nonneg].
  - destruct w as [|n w]; simpl.
    + split; apply Qle_refl.
    + destruct (IH w) as [IH0 IH1].
      assert (Hs : (Qnat (n + list_sum w) == Qnat n + Qnat (list_sum w))%Q).
      { unfold Qnat. rewrite Nat2Z.inj_add, inject_Z_plus. reflexivity. }
      pose proof (Qnat_nonneg n) as Hn.
      rewrite Hs. split; nra.
Qed.

Lemma mean_in_unit_interval (a : list Q) :
  a <> [] -> Forall in_unit_interval a ->
  pyfloat_in_unit_interval (np.mean a).
Proof.
  intros Hne Ha. destruct (sum_bounds a Ha) as [H0 H1].
  destruct a as [|x a]; [congruence|].
  unfold np.mean, pyfloat_in_unit_interval, in_unit_interval.
  assert (Hpos : (0 < Qnat (length (x :: a)))%Q)
    by (apply Qnat_pos; simpl; lia).
  split.
  - apply Qle_shift_div_l; [exact Hpos|]. lra.
  - apply Qle_shift_div_r; [exact Hpos|]. lra.
Qed.

Lemma weighted_mean_in_unit_interval (a : list Q) (w : list nat) :
  list_sum w <> 0 -> Forall in_unit_interval a ->
  in_unit_interval (np.sum (np.multiply a w) / Qnat (list_sum w)).
Proof.
  intros Hw Ha. destruct (weighted_sum_bounds a w Ha) as [H0 H1].
  pose proof (Qnat_pos _ Hw) as Hpos. unfold in_unit_interval. split.
  - apply Qle_shift_div_l; [exact Hpos|]. lra.
  - apply Qle_shift_div_r; [exact Hpos|]. lra.
Qed.

Lemma arrays_in_unit_interval (y_true y_pred : list nat) (K : nat) :
  Forall in_unit_interval (precision_array y_true y_pred K) /\
  Forall in_unit_interval (recall_array y_true y_pred K) /\
  Forall in_unit_interval (f1_array y_true y_pred K).
Proof.
  unfold precision_array, recall_array, f1_array.
  repeat split; apply Forall_forall; intros x Hin;
    apply in_map_iff in Hin; destruct Hin as [c [<- _]];
    apply (class_metric_at_sound y_true y_pred c).
Qed.

(** X1: whenever calculate_metrics succeeds, the three macro aggregates and
    the three weighted aggregates all lie in [0,1]. *)
Theorem aggregates_within_unit_interval
    (self self' : Evaluation) (generator : keras.DirectoryIterator)
    (y_pred : list nat) :
  self_valid_generator self = Some generator ->
  calculate_metrics y_pred self = (self', Ok tt) ->
  exists o,
    self_overall_metrics self' = Some o /\
    pyfloat_in_unit_interval (macro_precision o) /\
    pyfloat_in_unit_interval (macro_recall o) /\
    pyfloat_in_unit_interval (macro_f1_score o) /\
    pyfloat_in_unit_interval (weighted_precision o) /\
    pyfloat_in_unit_interval (weighted_recall o) /\
    pyfloat_in_unit_interval (weighted_f1_score o).
Proof.
  intros Hg Hrun.
  destruct (Nat.eq_dec (length (keras.classes generator)) (length y_pred))
    as [Hlen|Hlen].
  2:{ rewrite (calculate_metrics_length_mismatch self generator y_pred Hg Hlen)
        in Hrun. discriminate Hrun. }
  rewrite (calculate_metrics_aligned self generator y_pred Hg Hlen) in Hrun.
  cbv zeta in Hrun.
  set (y_true := keras.classes generator) in *.
  set (K := length (keras.class_indices generator)) in *.
  destruct (Nat.eqb_spec (list_sum (support_array y_true K)) 0) as [Hz|Hnz];
    [discriminate Hrun|].
  inversion Hrun; subst self'; clear Hrun.
  exists (overall_of y_true y_pred K). split; [reflexivity|].
  destruct (arrays_in_unit_interval y_true y_pred K) as [Hp [Hr Hf]].
  assert (HK : K <> 0).
  { intros HK0. apply Hnz. rewrite HK0. reflexivity. }
  assert (Hne : forall f : nat -> Q, map f (seq 0 K) <> []).
  { intros f H. apply (f_equal (@length Q)) in H.
    rewrite length_map, length_seq in H. simpl in H. contradiction. }
  unfold overall_of. cbn [macro_precision macro_recall macro_f1_score
    weighted_precision weighted_recall weighted_f1_score].
  repeat split;
    try (apply mean_in_unit_interval; [apply Hne | assumption]);
    try (apply weighted_mean_in_unit_interval; assumption).
Qed.

Lemma aggregates_within_unit_interval_witness :
  exists o,
    self_overall_metrics evaluated_sample = Some o /\
    pyfloat_in_unit_interval (macro_f1_score o).
Proof.
  destruct (aggregates_within_unit_interval
              (sample_evaluation cat_dog_fish [0; 0; 1; 1; 2])
              evaluated_sample
              (sample_generator cat_dog_fish [0; 0; 1; 1; 2])
              [0; 1; 1; 2; 2] eq_refl eq_refl)
    as [o [Ho [_ [_ [Hf _]]]]].
  exists o. split; [exact Ho | exact Hf].
Defined.

(** ** Weighted recall is the accuracy *)




Lemma filter_all {A : Type} (p : A -> bool) (l : list A) :
  Forall (fun x => p x = true) l -> filter p l = l.
Proof.
  induction 1 as [|x l Hx _ IH]; simpl; [reflexivity|].
  now rewrite Hx, IH.
Qed.


Lemma support_total_in_range (y_true : list nat) (K : nat) :
  Forall (fun c => c < K) y_true ->
  list_sum (support_array y_true K) = length y_true.
Proof.
  intros Hall. rewrite support_array_total. f_equal.
  apply filter_all. eapply Forall_impl; [|exact Hall].
  intros c Hc. now apply Nat.ltb_lt.
Qed.



(** ** Perfect predictions *)

Lemma tp_sum_same (y : list nat) (c : nat) :
  sklearn.tp_sum y y c = sklearn.true_sum y c.
Proof.
  unfold sklearn.tp_sum, sklearn.true_sum, sklearn.count_pairs.
  induction y as [|t y IH]; simpl; [reflexivity|].
  destruct (Nat.eq_dec t c) as [->|Hne].
  - rewrite Nat.eqb_refl. simpl. now rewrite IH.
  - apply Nat.eqb_neq in Hne. rewrite Hne. simpl. exact IH.
Qed.

Lemma count_pairs_same_off_diagonal (y : list nat) (a b : nat) :
  a <> b -> sklearn.count_pairs a b (combine y y) = 0.
Proof.
  intros Hab. unfold sklearn.count_pairs.
  induction y as [|t y IH]; simpl; [reflexivity|].
  destruct (Nat.eqb_spec t a), (Nat.eqb_spec t b); simpl;
    try exact IH. exfalso. congruence.
Qed.

Lemma class_metric_at_perfect (y : list nat) (c : nat) :
  let m := class_metric_at y y c in
  (support m <> 0 ->
   (precision m == 1)%Q /\ (recall m == 1)%Q /\ (f1_score m == 1)%Q) /\
  (support m = 0 ->
   precision m = 0%Q /\ recall m = 0%Q /\ f1_score m = 0%Q).
Proof.
  simpl. unfold sklearn.pred_sum. rewrite tp_sum_same.
  unfold sklearn.true_sum.
  set (n := count_occ Nat.eq_dec y c).
  split; intros Hn.
  - assert (Hone : (sklearn._prf_divide n n == 1)%Q).
    { unfold sklearn._prf_divide.
      destruct (Nat.eqb_spec n 0) as [Hz|_]; [contradiction|].
      pose proof (Qnat_pos n Hn). field. lra. }
    split; [exact Hone|]. split; [exact Hone|].
    unfold sklearn.f_score.
    destruct (Qeq_bool _ 0) eqn:E.
    + apply Qeq_bool_iff in E. rewrite Hone in E. discriminate E.
    + rewrite Hone. reflexivity.
  - rewrite Hn. repeat split.
Qed.

Lemma calculate_metrics_class_metrics
    (self : Evaluation) (generator : keras.DirectoryIterator)
    (y_pred : list nat) :
  self_valid_generator self = Some generator ->
  NoDup (keys (keras.class_indices generator)) ->
  length (keras.classes generator) = length y_pred ->
  self_class_metrics (fst (calculate_metrics y_pred self))
  = Some (combine (keys (keras.class_indices generator))
            (map (class_metric_at (keras.classes generator) y_pred)
                 (seq 0 (length (keras.class_indices generator))))).
Proof.
  intros Hg Hnd Hlen.
  rewrite (calculate_metrics_aligned self generator y_pred Hg Hlen).
  cbv zeta. unfold with_class_metrics.
  rewrite (fill_class_metrics_NoDup _ (keras.classes generator) y_pred Hnd).
  assert (HK : length (keys (keras.class_indices generator))
               = length (keras.class_indices generator))
    by (unfold keys; apply length_map).
  rewrite HK. destruct (list_sum _ =? 0); reflexivity.
Qed.

(** X3: when every prediction is right (the predicted labels are the true
    labels), every class with positive support gets precision, recall and
    f1_score 1, every class without support gets 0 for all three, and every
    cell of the confusion matrix off the diagonal is 0. *)
Theorem perfect_predictions
    (self : Evaluation) (generator : keras.DirectoryIterator) :
  self_valid_generator self = Some generator ->
  NoDup (keys (keras.class_indices generator)) ->
  let y_true := keras.classes generator in
  let run := calculate_metrics y_true self in
  exists cm d,
    self_confusion_matrix (fst run) = Some cm /\
    self_class_metrics (fst run) = Some d /\
    length d = length (keras.class_indices generator) /\
    (forall c label m, nth_error d c = Some (label, m) ->
       (support m <> 0 ->
        (precision m == 1)%Q /\ (recall m == 1)%Q /\ (f1_score m == 1)%Q) /\
       (support m = 0 ->
        precision m = 0%Q /\ recall m = 0%Q /\ f1_score m = 0%Q)) /\
    (forall i j, i <> j -> nth j (nth i cm []) 0 = 0).
Proof.
  intros Hg Hnd y_true run. subst run.
  set (K := length (keras.class_indices generator)).
  assert (HK : length (keys (keras.class_indices generator)) = K)
    by (unfold keys; apply length_map).
  exists (cm_of y_true y_true),
         (combine (keys (keras.class_indices generator))
            (map (class_metric_at y_true y_true) (seq 0 K))).
  split; [now apply calculate_metrics_confusion_matrix|].
  split; [now apply calculate_metrics_class_metrics|].
  split.
  { rewrite length_combine, length_map, length_seq, HK. apply Nat.min_id. }
  split.
  - intros c label m Hnth.
    apply nth_error_combine_inv in Hnth. destruct Hnth as [_ Hm].
    apply nth_error_map_seq_inv in Hm. destruct Hm as [_ ->].
    apply class_metric_at_perfect.
  - intros i j Hij. unfold cm_of.
    set (labels := sklearn.unique_labels y_true y_true).
    destruct (nth_error labels i) as [a|] eqn:Hi.
    + set (row := fun a => map (fun b => sklearn.count_pairs a b
                                           (combine y_true y_true)) labels).
      assert (Hrow : nth i (map row labels) [] = row a).
      { apply nth_error_nth. rewrite nth_error_map, Hi. reflexivity. }
      rewrite Hrow. unfold row.
      destruct (nth_error labels j) as [b|] eqn:Hj.
      * erewrite nth_error_nth
          by (rewrite nth_error_map, Hj; reflexivity).
        apply count_pairs_same_off_diagonal. intros <-.
        apply Hij.
        pose proof (NoDup_unique_labels y_true y_true) as Hnodup.
        fold labels in Hnodup.
        apply (proj1 (NoDup_nth_error labels) Hnodup i j);
          [apply nth_error_Some; congruence | congruence].
      * apply nth_overflow. rewrite length_map.
        now apply nth_error_None.
    + rewrite (nth_overflow (map _ labels)).
      * now destruct j.
      * rewrite length_map. now apply nth_error_None.
Qed.

Lemma perfect_predictions_witness :
  exists cm,
    self_confusion_matrix
      (fst (calculate_metrics [0; 0; 1; 1; 2]
              (sample_evaluation cat_dog_fish [0; 0; 1; 1; 2]))) = Some cm /\
    nth 1 (nth 0 cm []) 0 = 0.
Proof.
  destruct (perfect_predictions
              (sample_evaluation cat_dog_fish [0; 0; 1; 1; 2])
              (sample_generator cat_dog_fish [0; 0; 1; 1; 2])
              eq_refl NoDup_cat_dog_fish)
    as [cm [d [Hcm [_ [_ [_ Hoff]]]]]].
  exists cm. split; [exact Hcm|]. apply Hoff. discriminate.
Defined.

(** ** When every class occurs *)

Lemma unique_labels_all_classes (y_true y_pred : list nat) (K : nat) :
  Forall (fun c => c < K) (y_true ++ y_pred) ->
  (forall c, c < K -> In c (y_true ++ y_pred)) ->
  sklearn.unique_labels y_true y_pred = seq 0 K.
Proof.
  intros Hall Hocc. unfold sklearn.unique_labels.
  set (ys := y_true ++ y_pred) in *.
  destruct K as [|k].
  - destruct ys as [|c ys]; [reflexivity|].
    inversion Hall as [|? ? Hc _]; lia.
  - assert (Hmax : list_max ys = k).
    { apply Nat.le_antisymm.
      - apply list_max_le. eapply Forall_impl; [|exact Hall].
        intros c Hc. simpl in Hc. lia.
      - pose proof (proj1 (list_max_le ys (list_max ys)) (Nat.le_refl _))
          as Hle.
        rewrite Forall_forall in Hle. apply Hle. apply Hocc. lia. }
    rewrite Hmax. apply filter_all. apply Forall_forall.
    intros c Hc. apply in_seq in Hc.
    apply existsb_exists. exists c. split; [apply Hocc; lia|].
    apply Nat.eqb_refl.
Qed.

(** X4: when all labels lie in [0..K-1] and every class occurs in the true
    or the predicted sequence, the stored confusion matrix is K by K, its
    cell (i, j) counts the samples with true class i and predicted class j,
    and the sum of row c is the support stored for class c. *)
Theorem confusion_matrix_indexed_by_class
    (self : Evaluation) (generator : keras.DirectoryIterator)
    (y_pred : list nat) :
  self_valid_generator self = Some generator ->
  NoDup (keys (keras.class_indices generator)) ->
  length (keras.classes generator) = length y_pred ->
  let y_true := keras.classes generator in
  let K := length (keras.class_indices generator) in
  Forall (fun c => c < K) (y_true ++ y_pred) ->
  (forall c, c < K -> In c (y_true ++ y_pred)) ->
  exists cm d,
    self_confusion_matrix (fst (calculate_metrics y_pred self)) = Some cm /\
    self_class_metrics (fst (calculate_metrics y_pred self)) = Some d /\
    length cm = K /\
    Forall (fun row => length row = K) cm /\
    (forall i j, i < K -> j < K ->
       nth j (nth i cm []) 0
       = sklearn.count_pairs i j (combine y_true y_pred)) /\
    (forall c label m, nth_error d c = Some (label, m) ->
       row_sum cm c = support m).
Proof.
  intros Hg Hnd Hlen y_true K Hall Hocc.
  pose proof (unique_labels_all_classes y_true y_pred K Hall Hocc) as Hlabels.
  exists (cm_of y_true y_pred),
         (combine (keys (keras.class_indices generator))
            (map (class_metric_at y_true y_pred) (seq 0 K))).
  split; [now apply calculate_metrics_confusion_matrix|].
  split; [now apply calculate_metrics_class_metrics|].
  split; [unfold cm_of; now rewrite length_map, Hlabels, length_seq|].
  split.
  { unfold cm_of. apply Forall_forall. intros row Hin.
    apply in_map_iff in Hin. destruct Hin as [i [<- _]].
    now rewrite length_map, Hlabels, length_seq. }
  split.
  - intros i j Hi Hj. unfold cm_of. rewrite Hlabels.
    rewrite (nth_map_seq _ K i []) by exact Hi.
    now rewrite (nth_map_seq _ K j 0) by exact Hj.
  - intros c label m Hnth.
    apply nth_error_combine_inv in Hnth. destruct Hnth as [_ Hm].
    apply nth_error_map_seq_inv in Hm. destruct Hm as [Hc ->].
    simpl. apply cm_of_row_sum; [exact Hlen|].
    rewrite Hlabels, nth_error_seq.
    apply Nat.ltb_lt in Hc. now rewrite Hc.
Qed.

Lemma confusion_matrix_indexed_by_class_witness :
  exists cm,
    self_confusion_matrix evaluated_sample = Some cm /\ length cm = 3.
Proof.
  destruct (confusion_matrix_indexed_by_class
              (sample_evaluation cat_dog_fish [0; 0; 1; 1; 2])
              (sample_generator cat_dog_fish [0; 0; 1; 1; 2])
              [0; 1; 1; 2; 2] eq_refl NoDup_cat_dog_fish eq_refl)
    as [cm [d [Hcm [_ [Hrows _]]]]].
  - simpl. repeat constructor.
  - intros c Hc. simpl in Hc. simpl.
    destruct c as [|[|[|c]]]; [auto | auto | auto 6 | lia].
  - exists cm. split; [exact Hcm | exact Hrows].
Defined.

(** ** The validation generator *)

Lemma validation_files_count (files : list string) :
  length (keras.validation_files 0.20 files) = length files / 5.
Proof.
  unfold keras.validation_files.
  assert (Hfloor : Z.to_nat (Qfloor (0.20 * Qnat (length files)))
                   = length files / 5).
  { unfold Qnat, Qfloor, Qmult, inject_Z. simpl Qnum. simpl Qden.
    change (Z.pos (100 * 1)) with (20 * 5)%Z.
    rewrite Z.div_mul_cancel_l by lia.
    rewrite <- (Nat2Z.id (length files / 5)). f_equal.
    now rewrite Nat2Z.inj_div. }
  rewrite Hfloor. apply firstn_length_le.
  apply Nat.Div0.div_le_upper_bound. lia.
Qed.

Lemma labels_from_bounds (split : Q) (start : nat)
    (tree : list (string * list string)) :
  Forall (fun c => start <= c < start + length tree)
         (labels_from split start tree).
Proof.
  unfold labels_from. revert start.
  induction tree as [|[name files] tree IH]; intros start; simpl;
    [constructor|].
  apply Forall_app. split.
  - apply Forall_forall. intros c Hc. apply repeat_spec in Hc. lia.
  - eapply Forall_impl; [|apply (IH (S start))].
    intros c Hc. simpl in Hc. lia.
Qed.

Lemma labels_from_count (split : Q) (start c : nat)
    (tree : list (string * list string)) :
  start <= c ->
  count_occ Nat.eq_dec (labels_from split start tree) c
  = length (keras.validation_files split (class_files tree (c - start))).
Proof.
  unfold labels_from, class_files. revert start.
  induction tree as [|[name files] tree IH]; intros start Hle.
  - simpl. destruct (c - start); simpl; unfold keras.validation_files;
      now rewrite firstn_nil.
  - change (count_occ Nat.eq_dec
              (repeat start (length (keras.validation_files split files))
               ++ labels_from split (S start) tree) c
            = length (keras.validation_files split
                        (snd (nth (c - start) ((name, files) :: tree)
                                (EmptyString, []))))).
    rewrite count_occ_app.
    destruct (Nat.eq_dec c start) as [->|Hne].
    + rewrite count_occ_repeat_eq by reflexivity.
      rewrite Nat.sub_diag. simpl.
      rewrite (proj1 (count_occ_not_In Nat.eq_dec _ start)); [lia|].
      intros Hin.
      pose proof (labels_from_bounds split (S start) tree) as Hb.
      rewrite Forall_forall in Hb. specialize (Hb start Hin). lia.
    + rewrite count_occ_repeat_neq by congruence.
      replace (c - start) with (S (c - S start)) by lia.
      simpl. unfold labels_from. apply IH. lia.
Qed.

Lemma flow_classes (datagen : keras.ImageDataGenerator)
    (tree : list (string * list string)) (target_size : list nat)
    (batch_size : nat) (interpolation : string) :
  keras.classes
    (keras.flow_from_directory datagen tree target_size batch_size
       interpolation)
  = labels_from (keras.validation_split datagen) 0 tree.
Proof. reflexivity. Qed.

Lemma labels_from_length (split : Q) (start : nat)
    (tree : list (string * list string)) :
  length (labels_from split start tree)
  = length (concat (validation_partition split tree)).
Proof.
  unfold labels_from, validation_partition. revert start.
  induction tree as [|[name files] tree IH]; intros start; simpl;
    [reflexivity|].
  rewrite !length_app, repeat_length. f_equal. apply IH.
Qed.

(** X5: the generator that _valid_generator stores numbers the class
    directories 0..K-1 in their order, gives every selected file one true
    label, draws every true label from [0..K-1], and gives class c exactly
    floor(n/5) samples, n being the number of image files of its
    directory. *)
Theorem valid_generator_labels
    (disk : Disk) (self : Evaluation) (tree : list (string * list string)) :
  disk (training_data (self_config self)) = Some tree ->
  exists generator,
    _valid_generator disk self
      = (set_valid_generator generator self, Ok tt) /\
    keras.class_indices generator
      = combine (map fst tree) (seq 0 (length tree)) /\
    length (keras.class_indices generator) = length tree /\
    length (keras.classes generator) = length (keras.filepaths generator) /\
    Forall (fun c => c < length tree) (keras.classes generator) /\
    (forall c, sklearn.true_sum (keras.classes generator) c
               = length (class_files tree c) / 5).
Proof.
  intros Hdisk. eexists.
  split; [unfold _valid_generator; rewrite Hdisk; reflexivity|].
  split; [reflexivity|].
  split.
  { simpl. rewrite length_combine, length_map, length_seq. apply Nat.min_id. }
  split.
  { rewrite flow_classes, flow_filepaths. apply labels_from_length. }
  split.
  - rewrite flow_classes.
    eapply Forall_impl; [|apply labels_from_bounds].
    intros c Hc. simpl in Hc. lia.
  - intros c. rewrite flow_classes. unfold sklearn.true_sum.
    rewrite labels_from_count by lia.
    rewrite Nat.sub_0_r. apply validation_files_count.
Qed.

Lemma valid_generator_labels_witness :
  exists generator,
    _valid_generator sample_disk (__init__ sample_config)
      = (set_valid_generator generator (__init__ sample_config), Ok tt) /\
    sklearn.true_sum (keras.classes generator) 1 = 2.
Proof.
  destruct (valid_generator_labels sample_disk (__init__ sample_config)
              sample_tree eq_refl)
    as [generator [Hrun [_ [_ [_ [_ Hcount]]]]]].
  exists generator. split; [exact Hrun|]. rewrite Hcount. reflexivity.
Defined.

Lemma validation_partition_empty (tree : list (string * list string)) :
  length (concat (validation_partition 0.20 tree)) = 0
  <-> Forall (fun cls => length (snd cls) < 5) tree.
Proof.
  unfold validation_partition.
  induction tree as [|[name files] tree IH]; simpl.
  - split; [constructor | reflexivity].
  - rewrite length_app, validation_files_count. split.
    + intros H. constructor.
      * simpl. apply Nat.div_small_iff; lia.
      * apply IH. lia.
    + intros H. inversion H as [|? ? Hsmall Hrest]; subst. simpl in Hsmall.
      apply IH in Hrest. apply Nat.div_small_iff in Hsmall; lia.
Qed.

Lemma Forall_lt_or_Exists_ge (tree : list (string * list string)) :
  Forall (fun cls => length (snd cls) < 5) tree \/
  Exists (fun cls => 5 <= length (snd cls)) tree.
Proof.
  induction tree as [|cls tree [IH|IH]].
  - left. constructor.
  - destruct (Nat.lt_ge_cases (length (snd cls)) 5) as [Hlt|Hge].
    + left. now constructor.
    + right. now apply Exists_cons_hd.
  - right. now apply Exists_cons_tl.
Qed.

(** X6: on the generator that _valid_generator builds, calculate_metrics
    with one predicted label per validation sample succeeds exactly when
    some class directory holds at least five images; when every class
    directory holds fewer than five, the validation subset is empty and
    calculate_metrics raises ZeroDivisionError. *)
Theorem metrics_need_five_images
    (disk : Disk) (self : Evaluation) (tree : list (string * list string))
    (y_pred : list nat) :
  disk (training_data (self_config self)) = Some tree ->
  length y_pred = length (concat (validation_partition 0.20 tree)) ->
  let run := calculate_metrics y_pred (fst (_valid_generator disk self)) in
  (snd run = Ok tt <-> Exists (fun cls => 5 <= length (snd cls)) tree) /\
  (snd run = Raise ZeroDivisionError
   <-> Forall (fun cls => length (snd cls) < 5) tree).
Proof.
  intros Hdisk Hlen run.
  assert (Hexcl : Forall (fun cls => length (snd cls) < 5) tree ->
                  Exists (fun cls => 5 <= length (snd cls)) tree -> False).
  { intros Hall Hex. apply Exists_exists in Hex.
    destruct Hex as [cls [Hin Hge]]. rewrite Forall_forall in Hall.
    specialize (Hall cls Hin). lia. }
  set (generator := keras.flow_from_directory
                      {| keras.rescale := (1 / 255)%Q;
                         keras.validation_split := 0.20%Q |}
                      tree (firstn 2 (params_image_size (self_config self)))
                      (params_batch_size (self_config self)) "bilinear").
  assert (Hgen : _valid_generator disk self
                 = (set_valid_generator generator self, Ok tt)).
  { unfold _valid_generator. rewrite Hdisk. reflexivity. }
  assert (Hclasses : keras.classes generator = labels_from 0.20 0 tree)
    by reflexivity.
  assert (HK : length (keras.class_indices generator) = length tree).
  { simpl. rewrite length_combine, length_map, length_seq. apply Nat.min_id. }
  assert (Haligned : length (keras.classes generator) = length y_pred).
  { rewrite Hclasses, labels_from_length. now symmetry. }
  assert (Hrange : Forall (fun c => c < length tree)
                          (keras.classes generator)).
  { rewrite Hclasses. eapply Forall_impl; [|apply labels_from_bounds].
    intros c Hc. simpl in Hc. lia. }
  subst run. rewrite Hgen. cbn [fst].
  rewrite (calculate_metrics_aligned (set_valid_generator generator self)
             generator y_pred eq_refl Haligned).
  cbv zeta. rewrite HK.
  rewrite (support_total_in_range _ _ Hrange), Haligned, Hlen.
  destruct (Nat.eqb_spec
              (length (concat (validation_partition 0.20 tree))) 0)
    as [Hz|Hnz]; cbn [snd].
  - apply validation_partition_empty in Hz.
    split; split; intros H; try reflexivity; try assumption;
      try discriminate H.
    exfalso. exact (Hexcl Hz H).
  - assert (Hex : Exists (fun cls => 5 <= length (snd cls)) tree).
    { destruct (Forall_lt_or_Exists_ge tree) as [Hall|Hex]; [|exact Hex].
      apply validation_partition_empty in Hall. contradiction. }
    split; split; intros H; try reflexivity; try assumption;
      try discriminate H.
    exfalso. exact (Hexcl H Hex).
Qed.

Lemma metrics_need_five_images_witness :
  snd (calculate_metrics [0; 1; 1; 1]
         (fst (_valid_generator sample_disk (__init__ sample_config))))
  = Ok tt.
Proof.
  apply (proj1 (metrics_need_five_images sample_disk (__init__ sample_config)
                  sample_tree [0; 1; 1; 1] eq_refl eq_refl)).
  apply Exists_cons_hd. simpl. lia.
Defined.

(** ** Arg-max *)

Lemma argmax_from_spec (row : list Q) :
  forall (best_idx : nat) (best : Q) (idx : nat),
    best_idx < idx ->
    let r := argmax_from best_idx best idx row in
    let v := if r =? best_idx then best else nth (r - idx) row 0%Q in
    (r = best_idx \/ idx <= r < idx + length row) /\
    (best <= v)%Q /\
    Forall (fun x => (x <= v)%Q) row /\
    (forall j, idx + j < r -> (nth j row 0 < v)%Q) /\
    (r <> best_idx -> (best < v)%Q).
Proof.
  induction row as [|x row IH]; intros best_idx best idx Hlt.
  - simpl. rewrite Nat.eqb_refl.
    split; [now left|]. split; [apply Qle_refl|]. split; [constructor|].
    split; [intros j Hj; lia | intros H; congruence].
  - simpl argmax_from. destruct (Qle_bool x best) eqn:Hx.
    + apply Qle_bool_iff in Hx.
      destruct (IH best_idx best (S idx) (Nat.lt_lt_succ_r _ _ Hlt))
        as [Hr [Hb [Hall [Hfirst Hneq]]]].
      set (r := argmax_from best_idx best (S idx) row) in *.
      assert (Hv : (if r =? best_idx then best else nth (r - idx) (x :: row) 0%Q)
                   = (if r =? best_idx then best else nth (r - S idx) row 0%Q)).
      { destruct (Nat.eqb_spec r best_idx) as [_|Hne]; [reflexivity|].
        destruct Hr as [Hr|Hr]; [contradiction|].
        replace (r - idx) with (S (r - S idx)) by lia. reflexivity. }
      cbv zeta. rewrite Hv.
      split; [destruct Hr as [Hr|Hr]; [now left | right; simpl; lia]|].
      split; [exact Hb|].
      split; [constructor; [lra | exact Hall]|].
      split; [|exact Hneq].
      intros [|j] Hj; simpl.
      * destruct (Nat.eqb_spec r best_idx) as [Heq|Hne]; [lia|].
        specialize (Hneq Hne). lra.
      * apply Hfirst. lia.
    + assert (Hbx : (best < x)%Q).
      { destruct (Qlt_le_dec best x) as [H|H]; [exact H|].
        apply Qle_bool_iff in H. congruence. }
      destruct (IH idx x (S idx) (Nat.lt_succ_diag_r idx))
        as [Hr [Hb [Hall [Hfirst Hneq]]]].
      set (r := argmax_from idx x (S idx) row) in *.
      assert (Hrne : r <> best_idx) by (destruct Hr; lia).
      assert (Hv : (if r =? best_idx then best else nth (r - idx) (x :: row) 0%Q)
                   = (if r =? idx then x else nth (r - S idx) row 0%Q)).
      { apply Nat.eqb_neq in Hrne. rewrite Hrne.
        destruct (Nat.eqb_spec r idx) as [->|Hne].
        - now rewrite Nat.sub_diag.
        - destruct Hr as [Hr|Hr]; [contradiction|].
          replace (r - idx) with (S (r - S idx)) by lia. reflexivity. }
      cbv zeta. rewrite Hv.
      split; [right; simpl; destruct Hr; lia|].
      split; [lra|].
      split; [constructor; [exact Hb | exact Hall]|].
      split; [|intros _; lra].
      intros [|j] Hj; simpl.
      * apply Hneq. lia.
      * apply Hfirst. lia.
Qed.

(** X7: np.argmax of a non-empty row returns an index inside the row whose
    entry is at least every entry of the row and strictly greater than every
    entry before it (the first occurrence of the maximum); for an empty row
    it raises ValueError. *)
Theorem argmax_first_maximum (row : list Q) :
  (row = [] -> argmax row = Raise ValueError) /\
  (row <> [] ->
   exists i,
     argmax row = Ok i /\ i < length row /\
     Forall (fun x => (x <= nth i row 0)%Q) row /\
     (forall j, j < i -> (nth j row 0 < nth i row 0)%Q)).
Proof.
  split; [intros ->; reflexivity|].
  intros Hne. destruct row as [|x row]; [congruence|]. clear Hne.
  exists (argmax_from 0 x 1 row). split; [reflexivity|].
  destruct (argmax_from_spec row 0 x 1 Nat.lt_0_1)
    as [Hr [Hb [Hall [Hfirst Hneq]]]].
  set (r := argmax_from 0 x 1 row) in *.
  assert (Hv : (if r =? 0 then x else nth (r - 1) row 0%Q)
               = nth r (x :: row) 0%Q).
  { destruct r as [|r]; simpl; [reflexivity|]. now rewrite Nat.sub_0_r. }
  cbv zeta in Hb, Hall, Hfirst, Hneq. rewrite Hv in *.
  split; [simpl; destruct Hr; lia|].
  split; [constructor; assumption|].
  intros [|j] Hj; simpl.
  - apply Hneq. lia.
  - apply Hfirst. lia.
Qed.

Lemma argmax_first_maximum_witness :
  exists i, argmax [0.1%Q; 0.7%Q; 0.7%Q; 0.2%Q] = Ok i /\ i < 4.
Proof.
  destruct (proj2 (argmax_first_maximum [0.1%Q; 0.7%Q; 0.7%Q; 0.2%Q]))
    as [i [Hi [Hlt _]]].
  - discriminate.
  - exists i. split; [exact Hi | exact Hlt].
Defined.

Lemma argmax_in_row (row : list Q) :
  row <> [] -> exists i, argmax row = Ok i /\ i < length row.
Proof.
  intros Hne. destruct row as [|x row]; [congruence|].
  exists (argmax_from 0 x 1 row). split; [reflexivity|].
  destruct (argmax_from_spec row 0 x 1 Nat.lt_0_1) as [Hr _].
  simpl. destruct Hr; lia.
Qed.

(** X8: np.argmax(predictions, axis=1) on rows of K > 0 entries each
    returns one label per row, every label below K; if some row is empty it
    raises ValueError. *)
Theorem argmax_axis1_labels (predictions : list (list Q)) (K : nat) :
  (K <> 0 -> Forall (fun row => length row = K) predictions ->
   exists labels,
     argmax_axis1 predictions = Ok labels /\
     length labels = length predictions /\
     Forall (fun c => c < K) labels) /\
  (In [] predictions -> argmax_axis1 predictions = Raise ValueError).
Proof.
  split.
  - intros HK Hall.
    induction Hall as [|row predictions Hrow _ IH].
    + exists []. repeat split. constructor.
    + destruct IH as [labels [Hrun [Hlen Hrange]]].
      destruct (argmax_in_row row) as [i [Hi Hlt]].
      { intros ->. simpl in Hrow. congruence. }
      exists (i :: labels). simpl. rewrite Hi, Hrun.
      split; [reflexivity|]. split; [now rewrite Hlen|].
      constructor; [now rewrite <- Hrow | exact Hrange].
  - induction predictions as [|row predictions IH]; intros Hin;
      [contradiction|].
    destruct Hin as [->|Hin]; [reflexivity|].
    simpl. destruct (argmax row) as [label|e] eqn:Hrow.
    + now rewrite (IH Hin).
    + destruct row; [|discriminate Hrow]. simpl in Hrow. congruence.
Qed.

Lemma argmax_axis1_labels_witness :
  exists labels,
    argmax_axis1 [[0.25%Q; 0.75%Q]; [0.9%Q; 0.1%Q]] = Ok labels /\
    length labels = 2.
Proof.
  destruct (proj1 (argmax_axis1_labels [[0.25%Q; 0.75%Q]; [0.9%Q; 0.1%Q]] 2))
    as [labels [Hrun [Hlen _]]].
  - discriminate.
  - repeat constructor.
  - exists labels. split; [exact Hrun | exact Hlen].
Defined.

(** ** The method [evaluation] *)

Lemma map_fst_combine {A B : Type} (la : list A) (lb : list B) :
  length la = length lb -> map fst (combine la lb) = la.
Proof.
  revert lb. induction la as [|a la IH]; intros [|b lb]; simpl;
    try discriminate; [reflexivity|].
  intros H. f_equal. apply IH. lia.
Qed.

Lemma calculate_metrics_frame (self : Evaluation) (y_pred : list nat) :
  let self' := fst (calculate_metrics y_pred self) in
  self_config self' = self_config self /\
  self_valid_generator self' = self_valid_generator self /\
  self_score self' = self_score self.
Proof.
  destruct (self_valid_generator self) as [generator|] eqn:Hg.
  - destruct (Nat.eq_dec (length (keras.classes generator)) (length y_pred))
      as [Hlen|Hlen].
    + rewrite (calculate_metrics_aligned self generator y_pred Hg Hlen).
      cbv zeta. destruct (list_sum _ =? 0); simpl; auto.
    + rewrite (calculate_metrics_length_mismatch self generator y_pred
                 Hg Hlen). simpl. auto.
  - rewrite (calculate_metrics_no_generator self y_pred Hg). simpl. auto.
Qed.

Lemma valid_generator_run (disk : Disk) (self : Evaluation) :
  match disk (training_data (self_config self)) with
  | None => _valid_generator disk self = (self, Raise FileNotFoundError)
  | Some tree =>
      _valid_generator disk self
      = (set_valid_generator
           (keras.flow_from_directory
              {| keras.rescale := (1 / 255)%Q;
                 keras.validation_split := 0.20%Q |}
              tree (firstn 2 (params_image_size (self_config self)))
              (params_batch_size (self_config self)) "bilinear")
           self, Ok tt)
  end.
Proof.
  unfold _valid_generator.
  destruct (disk (training_data (self_config self))); reflexivity.
Qed.

Lemma evaluation_returned_inv
    (models : ModelStore) (disk : Disk) (self self' : Evaluation) :
  evaluation models disk self = (self', Returned) ->
  exists model tree generator score predictions y_pred,
    models (path_of_model (self_config self)) = Some model /\
    self_valid_generator self = None /\
    disk (training_data (self_config self)) = Some tree /\
    generator
      = keras.flow_from_directory
          {| keras.rescale := (1 / 255)%Q; keras.validation_split := 0.20%Q |}
          tree (firstn 2 (params_image_size (self_config self)))
          (params_batch_size (self_config self)) "bilinear" /\
    evaluate model generator = Ok score /\
    predict model generator = Ok predictions /\
    argmax_axis1 predictions = Ok y_pred /\
    calculate_metrics y_pred
      (set_score score (set_valid_generator generator self))
    = (self', Ok tt).
Proof.
  unfold evaluation. intros H.
  destruct (models (path_of_model (self_config self))) as [model|];
    [|discriminate H].
  destruct (self_valid_generator self) eqn:Hnone; [discriminate H|].
  pose proof (valid_generator_run disk self) as Hgen.
  destruct (disk (training_data (self_config self))) as [tree|];
    rewrite Hgen in H; [|discriminate H].
  cbn [self_valid_generator set_valid_generator] in H.
  match type of Hgen with
  | _ = (set_valid_generator ?g _, _) => set (generator := g) in *
  end.
  destruct (evaluate model generator) as [score|] eqn:Hscore;
    [|discriminate H].
  destruct (predict model generator) as [predictions|] eqn:Hpredict;
    [|discriminate H].
  destruct (argmax_axis1 predictions) as [y_pred|] eqn:Hargmax;
    [|discriminate H].
  destruct (calculate_metrics y_pred
              (set_score score (set_valid_generator generator self)))
    as [self3 [[]|e]] eqn:Hrun; [|discriminate H].
  inversion H; subst self3.
  exists model, tree, generator, score, predictions, y_pred.
  repeat split; try assumption; reflexivity.
Qed.

(** X9: evaluation can run once per object: after a call that returned, a
    second call on the same object raises TypeError and leaves the object as
    it is, because the iterator that the first call stored under the name
    _valid_generator shadows the method of that name. *)
Theorem evaluation_runs_once
    (models : ModelStore) (disk : Disk) (self self' : Evaluation) :
  evaluation models disk self = (self', Returned) ->
  evaluation models disk self' = (self', RaisedTypeError).
Proof.
  intros H.
  destruct (evaluation_returned_inv models disk self self' H)
    as [model [tree [generator [score [predictions [y_pred
         [Hmodel [_ [_ [_ [_ [_ [_ Hrun]]]]]]]]]]]]].
  pose proof (calculate_metrics_frame
                (set_score score (set_valid_generator generator self)) y_pred)
    as [Hconfig [Hgen _]].
  rewrite Hrun in Hconfig, Hgen. simpl in Hconfig, Hgen.
  unfold evaluation. rewrite Hconfig, Hmodel, Hgen. reflexivity.
Qed.

Lemma evaluation_runs_once_witness :
  evaluation sample_models sample_disk
    (fst (evaluation sample_models sample_disk (__init__ sample_config)))
  = (fst (evaluation sample_models sample_disk (__init__ sample_config)),
     RaisedTypeError).
Proof.
  apply (evaluation_runs_once sample_models sample_disk
           (__init__ sample_config)).
  reflexivity.
Defined.

(** X10: after a call of evaluation that returned, save_score raises
    nothing: it writes to scores.json a report whose class_labels are the
    names of the class directories in order, whose loss and accuracy are the
    two values that model.evaluate returned, and whose confusion-matrix cells
    add up to the number of validation files. *)
Theorem evaluation_then_save_score
    (models : ModelStore) (disk : Disk) (self self' : Evaluation)
    (iterencode : Scores -> list string) (fs : FS) :
  evaluation models disk self = (self', Returned) ->
  exists model tree generator data,
    models (path_of_model (self_config self)) = Some model /\
    disk (training_data (self_config self)) = Some tree /\
    self_valid_generator self' = Some generator /\
    save_score iterencode self' fs
      = Ok (save_json iterencode "scores.json" data fs) /\
    class_labels data = map fst tree /\
    evaluate model generator = Ok (loss data, accuracy data) /\
    all_cells (confusion_matrix data)
      = length (concat (validation_partition 0.20 tree)).
Proof.
  intros H.
  destruct (evaluation_returned_inv models disk self self' H)
    as [model [tree [generator [score [predictions [y_pred
         [Hmodel [_ [Hdisk [Hgenerator [Hscore [_ [_ Hrun]]]]]]]]]]]]].
  set (self2 := set_score score (set_valid_generator generator self)) in *.
  destruct (Nat.eq_dec (length (keras.classes generator)) (length y_pred))
    as [Hlen|Hlen].
  2:{ rewrite (calculate_metrics_length_mismatch self2 generator y_pred
                 eq_refl Hlen) in Hrun. discriminate Hrun. }
  rewrite (calculate_metrics_aligned self2 generator y_pred eq_refl Hlen)
    in Hrun.
  cbv zeta in Hrun.
  destruct (list_sum _ =? 0); [discriminate Hrun|].
  inversion Hrun as [Hself']. clear Hrun.
  exists model, tree, generator,
    (scores_of score (cm_of (keras.classes generator) y_pred) generator
       (fill_class_metrics (keys (keras.class_indices generator))
          (precision_array (keras.classes generator) y_pred
             (length (keys (keras.class_indices generator))))
          (recall_array (keras.classes generator) y_pred
             (length (keys (keras.class_indices generator))))
          (f1_array (keras.classes generator) y_pred
             (length (keys (keras.class_indices generator))))
          (support_array (keras.classes generator)
             (length (keys (keras.class_indices generator)))))
       (overall_of (keras.classes generator) y_pred
          (length (keras.class_indices generator)))).
  split; [exact Hmodel|]. split; [exact Hdisk|].
  split; [reflexivity|].
  split; [reflexivity|].
  split.
  { simpl. rewrite Hgenerator. simpl. unfold keys.
    apply map_fst_combine. now rewrite length_map, length_seq. }
  split; [simpl; rewrite Hscore; now destruct score|].
  simpl. rewrite (cm_of_all_cells _ _ Hlen).
  rewrite Hgenerator, flow_classes. apply labels_from_length.
Qed.

Lemma evaluation_then_save_score_witness :
  exists data,
    save_score sample_iterencode
      (fst (evaluation sample_models sample_disk (__init__ sample_config)))
      sample_fs
    = Ok (save_json sample_iterencode "scores.json" data sample_fs) /\
    class_labels data = ["Coccidiosis"; "Healthy"]%string.
Proof.
  destruct (evaluation_then_save_score sample_models sample_disk
              (__init__ sample_config)
              (fst (evaluation sample_models sample_disk
                      (__init__ sample_config)))
              sample_iterencode sample_fs eq_refl)
    as [model [tree [generator [data [_ [Hdisk [_ [Hsave [Hlabels _]]]]]]]]].
  exists data. split; [exact Hsave|].
  rewrite Hlabels. inversion Hdisk. reflexivity.
Defined.

(** * Helpers and data ingestion *)

(** ** File sizes *)

Lemma round_quotient_nearest (n : nat) :
  let k := round_quotient n 1024 in
  1024 * k <= n + 512 /\ n <= 1024 * k + 512 /\
  (n mod 1024 = 512 -> Nat.even k = true).
Proof.
  unfold round_quotient.
  pose proof (Nat.div_mod_eq n 1024) as Hdm.
  pose proof (Nat.mod_upper_bound n 1024) as Hr.
  set (q := n / 1024) in *. set (r := n mod 1024) in *.
  destruct (Nat.compare_spec (2 * r) 1024) as [Heq|Hlt|Hgt].
  - destruct (Nat.even q) eqn:Heven.
    + repeat split; try lia. auto.
    + repeat split; try lia. intros _.
      rewrite Nat.even_succ. rewrite <- Nat.negb_even, Heven. reflexivity.
  - repeat split; lia.
  - repeat split; lia.
Qed.

Lemma round_quotient_monotone (n m : nat) :
  n <= m -> round_quotient n 1024 <= round_quotient m 1024.
Proof.
  intros Hle. unfold round_quotient.
  pose proof (Nat.div_mod_eq n 1024) as Hn.
  pose proof (Nat.mod_upper_bound n 1024) as Hrn.
  pose proof (Nat.div_mod_eq m 1024) as Hm.
  pose proof (Nat.mod_upper_bound m 1024) as Hrm.
  set (qn := n / 1024) in *. set (rn := n mod 1024) in *.
  set (qm := m / 1024) in *. set (rm := m mod 1024) in *.
  destruct (Nat.eq_dec qn qm) as [Hq|Hq].
  - rewrite <- Hq in *.
    destruct (Nat.compare_spec (2 * rn) 1024),
             (Nat.compare_spec (2 * rm) 1024),
             (Nat.even qn); lia.
  - assert (qn < qm) by nia.
    destruct (Nat.compare_spec (2 * rn) 1024),
             (Nat.compare_spec (2 * rm) 1024),
             (Nat.even qn), (Nat.even qm); lia.
Qed.

(** X11: for a file of n bytes, get_size returns "~ k KB" where k is the
    integer nearest to n / 1024, the even one of the two when n lies halfway
    (a file of 512 bytes is reported as 0 KB, one of 1536 bytes as 2 KB);
    for a missing file it raises FileNotFoundError. *)
Theorem get_size_rounds_to_nearest (fs : FS) (path : string) :
  (fs path = None -> get_size fs path = Raise FileNotFoundError) /\
  (forall content, fs path = Some content ->
   let n := String.length content in
   exists k,
     get_size fs path
       = Ok (String.append "~ " (String.append (decimal k) " KB")) /\
     1024 * k <= n + 512 /\ n <= 1024 * k + 512 /\
     (n mod 1024 = 512 -> Nat.even k = true) /\
     (n <= 512 -> k = 0)).
Proof.
  split.
  - intros Hnone. unfold get_size. now rewrite Hnone.
  - intros content Hsome n.
    exists (round_quotient n 1024).
    split; [unfold get_size; now rewrite Hsome|].
    destruct (round_quotient_nearest n) as [Hlo [Hhi Htie]].
    repeat split; try assumption.
    intros Hsmall.
    destruct (Nat.eq_dec n 512) as [Heq|Hne].
    + rewrite Heq. reflexivity.
    + cbv zeta in Hlo. lia.
Qed.

Lemma get_size_rounds_to_nearest_witness :
  exists k,
    get_size sample_fs "scores.json"
      = Ok (String.append "~ " (String.append (decimal k) " KB")) /\
    k = 0.
Proof.
  destruct (proj2 (get_size_rounds_to_nearest sample_fs "scores.json")
              "previous report"%string eq_refl)
    as [k [Hsize [_ [_ [_ Hsmall]]]]].
  exists k. split; [exact Hsize|]. apply Hsmall. simpl. lia.
Defined.

(** X12: get_size is monotone: of two files, the one that is not larger is
    not reported with more KB. *)
Theorem get_size_monotone (fs : FS) (p1 p2 c1 c2 : string) :
  fs p1 = Some c1 -> fs p2 = Some c2 ->
  String.length c1 <= String.length c2 ->
  exists k1 k2,
    get_size fs p1
      = Ok (String.append "~ " (String.append (decimal k1) " KB")) /\
    get_size fs p2
      = Ok (String.append "~ " (String.append (decimal k2) " KB")) /\
    k1 <= k2.
Proof.
  intros H1 H2 Hle.
  exists (round_quotient (String.length c1) 1024),
         (round_quotient (String.length c2) 1024).
  unfold get_size. rewrite H1, H2.
  split; [reflexivity|]. split; [reflexivity|].
  now apply round_quotient_monotone.
Qed.

Lemma get_size_monotone_witness :
  exists k1 k2,
    get_size (fs_write "a" "12345" sample_fs) "a"
      = Ok (String.append "~ " (String.append (decimal k1) " KB")) /\
    get_size (fs_write "a" "12345" sample_fs) "scores.json"
      = Ok (String.append "~ " (String.append (decimal k2) " KB")) /\
    k1 <= k2.
Proof.
  apply (get_size_monotone (fs_write "a" "12345" sample_fs)
           "a" "scores.json" "12345" "previous report");
    [reflexivity | reflexivity | simpl; lia].
Defined.

(** ** Downloading *)



(** ** Base64 *)

Lemma forall_bool_spec (p : bool -> bool) :
  forall_bool p = true -> forall b, p b = true.
Proof.
  unfold forall_bool. intros H b. apply andb_prop in H.
  destruct b; tauto.
Qed.

Lemma forall_ascii_spec (p : ascii -> bool) :
  forall_ascii p = true -> forall a, p a = true.
Proof.
  unfold forall_ascii. intros H [b0 b1 b2 b3 b4 b5 b6 b7].
  pose proof (forall_bool_spec _ H b0) as H0. cbv beta in H0.
  pose proof (forall_bool_spec _ H0 b1) as H1. cbv beta in H1.
  pose proof (forall_bool_spec _ H1 b2) as H2. cbv beta in H2.
  pose proof (forall_bool_spec _ H2 b3) as H3. cbv beta in H3.
  pose proof (forall_bool_spec _ H3 b4) as H4. cbv beta in H4.
  pose proof (forall_bool_spec _ H4 b5) as H5. cbv beta in H5.
  pose proof (forall_bool_spec _ H5 b6) as H6. cbv beta in H6.
  exact (forall_bool_spec _ H6 b7).
Qed.

Lemma forall_ascii2_spec (p : ascii -> ascii -> bool) :
  forall_ascii (fun a => forall_ascii (p a)) = true ->
  forall a b, p a b = true.
Proof.
  intros H a b.
  exact (forall_ascii_spec _ (forall_ascii_spec _ H a) b).
Qed.

(** A six-bit value survives the two tables, and its character is not the
    pad. *)
Definition sextet_ok (n : N) : bool :=
  match table_a2b_base64 (table_b2a_base64 n) with
  | Some m => (m =? n)%N
  | None => false
  end
  && negb (Ascii.eqb (table_b2a_base64 n) BASE64_PAD).

Lemma sextet_ok_spec (n : N) :
  sextet_ok n = true ->
  table_a2b_base64 (table_b2a_base64 n) = Some n /\
  Ascii.eqb (table_b2a_base64 n) BASE64_PAD = false.
Proof.
  unfold sextet_ok. intros H. apply andb_prop in H. destruct H as [H1 H2].
  split.
  - destruct (table_a2b_base64 (table_b2a_base64 n)) as [m|];
      [|discriminate H1].
    apply N.eqb_eq in H1. now subst.
  - now apply negb_true_iff in H2.
Qed.

Lemma sextet0_ok (a : ascii) : sextet_ok (sextet0 a) = true.
Proof. revert a. apply forall_ascii_spec. vm_compute. reflexivity. Qed.

Lemma sextet1_ok (a b : ascii) : sextet_ok (sextet1 a b) = true.
Proof. revert a b. apply forall_ascii2_spec. vm_compute. reflexivity. Qed.

Lemma sextet2_ok (b c : ascii) : sextet_ok (sextet2 b c) = true.
Proof. revert b c. apply forall_ascii2_spec. vm_compute. reflexivity. Qed.

Lemma sextet3_ok (c : ascii) : sextet_ok (sextet3 c) = true.
Proof. revert c. apply forall_ascii_spec. vm_compute. reflexivity. Qed.

Lemma sextet1_tail_ok (a : ascii) :
  sextet_ok (N.shiftl (N.land (N_of_ascii a) 3) 4) = true.
Proof. revert a. apply forall_ascii_spec. vm_compute. reflexivity. Qed.

Lemma sextet2_tail_ok (b : ascii) :
  sextet_ok (N.shiftl (N.land (N_of_ascii b) 15) 2) = true.
Proof. revert b. apply forall_ascii_spec. vm_compute. reflexivity. Qed.

(** The bytes that the loop writes for the six-bit groups of [a], [b],
    [c] are [a], [b], [c]. *)
Lemma byte0_restored (a b : ascii) :
  Ascii.eqb
    (ascii_of_N (N.lor (N.shiftl (sextet0 a) 2) (N.shiftr (sextet1 a b) 4)))
    a = true.
Proof. revert a b. apply forall_ascii2_spec. vm_compute. reflexivity. Qed.

Lemma leftchar1 (a b : ascii) :
  (N.land (sextet1 a b) 15 =? N.shiftr (N_of_ascii b) 4)%N = true.
Proof. revert a b. apply forall_ascii2_spec. vm_compute. reflexivity. Qed.

Lemma byte1_restored (b c : ascii) :
  Ascii.eqb
    (ascii_of_N (N.lor (N.shiftl (N.shiftr (N_of_ascii b) 4) 4)
                       (N.shiftr (sextet2 b c) 2)))
    b = true.
Proof. revert b c. apply forall_ascii2_spec. vm_compute. reflexivity. Qed.

Lemma byte2_restored (b c : ascii) :
  Ascii.eqb
    (ascii_of_N (N.lor (N.shiftl (N.land (sextet2 b c) 3) 6) (sextet3 c)))
    c = true.
Proof. revert b c. apply forall_ascii2_spec. vm_compute. reflexivity. Qed.

Lemma byte0_tail_restored (a : ascii) :
  Ascii.eqb
    (ascii_of_N (N.lor (N.shiftl (sextet0 a) 2)
                       (N.shiftr (N.shiftl (N.land (N_of_ascii a) 3) 4) 4)))
    a = true.
Proof. revert a. apply forall_ascii_spec. vm_compute. reflexivity. Qed.

Lemma byte1_tail_restored (b : ascii) :
  Ascii.eqb
    (ascii_of_N
       (N.lor (N.shiftl (N.shiftr (N_of_ascii b) 4) 4)
              (N.shiftr (N.shiftl (N.land (N_of_ascii b) 15) 2) 2)))
    b = true.
Proof. revert b. apply forall_ascii_spec. vm_compute. reflexivity. Qed.

Lemma pad_not_in_alphabet : table_a2b_base64 BASE64_PAD = None.
Proof. reflexivity. Qed.

Lemma loop_sextet (quad_pos : nat) (leftchar : N) (pads : nat) (n : N)
    (rest : string) :
  sextet_ok n = true ->
  a2b_loop quad_pos leftchar pads (String (table_b2a_base64 n) rest)
  = match quad_pos with
    | 0 => a2b_loop 1 n 0 rest
    | 1 => emit (N.lor (N.shiftl leftchar 2) (N.shiftr n 4))
                (a2b_loop 2 (N.land n 15) 0 rest)
    | 2 => emit (N.lor (N.shiftl leftchar 4) (N.shiftr n 2))
                (a2b_loop 3 (N.land n 3) 0 rest)
    | _ => emit (N.lor (N.shiftl leftchar 6) n) (a2b_loop 0 0%N 0 rest)
    end.
Proof.
  intros Hok. apply sextet_ok_spec in Hok. destruct Hok as [Htable Hpad].
  simpl. rewrite Hpad, Htable. reflexivity.
Qed.

Lemma emit_byte (byte : N) (a : ascii) (rest : result string) :
  Ascii.eqb (ascii_of_N byte) a = true ->
  emit byte rest
  = match rest with Ok out => Ok (String a out) | Raise e => Raise e end.
Proof.
  intros H. apply Ascii.eqb_eq in H. unfold emit. now rewrite H.
Qed.

Lemma loop_group (a b c : ascii) (rest : string) :
  a2b_loop 0 0%N 0
    (String (table_b2a_base64 (sextet0 a))
       (String (table_b2a_base64 (sextet1 a b))
          (String (table_b2a_base64 (sextet2 b c))
             (String (table_b2a_base64 (sextet3 c)) rest))))
  = match a2b_loop 0 0%N 0 rest with
    | Ok out => Ok (String a (String b (String c out)))
    | Raise e => Raise e
    end.
Proof.
  rewrite (loop_sextet 0 _ _ _ _ (sextet0_ok a)).
  rewrite (loop_sextet 1 _ _ _ _ (sextet1_ok a b)).
  rewrite (loop_sextet 2 _ _ _ _ (sextet2_ok b c)).
  rewrite (loop_sextet 3 _ _ _ _ (sextet3_ok c)).
  rewrite (proj1 (N.eqb_eq _ _) (leftchar1 a b)).
  rewrite (emit_byte _ a _ (byte0_restored a b)).
  rewrite (emit_byte _ b _ (byte1_restored b c)).
  rewrite (emit_byte _ c _ (byte2_restored b c)).
  destruct (a2b_loop 0 0%N 0 rest); reflexivity.
Qed.

Lemma string_ind3 (P : string -> Prop) :
  P EmptyString ->
  (forall a, P (String a EmptyString)) ->
  (forall a b, P (String a (String b EmptyString))) ->
  (forall a b c rest, P rest -> P (String a (String b (String c rest)))) ->
  forall s, P s.
Proof.
  intros H0 H1 H2 H3 s.
  assert (H : P s /\ (forall a, P (String a s))
              /\ (forall a b, P (String a (String b s)))).
  { induction s as [|c s [IH0 [IH1 IH2]]].
    - auto.
    - split; [apply IH1|]. split; [intros a; apply IH2|].
      intros a b. now apply H3. }
  apply H.
Qed.

Lemma b2a_base64_group (a b c : ascii) (rest : string) :
  b2a_base64 (String a (String b (String c rest)))
  = String (table_b2a_base64 (sextet0 a))
      (String (table_b2a_base64 (sextet1 a b))
         (String (table_b2a_base64 (sextet2 b c))
            (String (table_b2a_base64 (sextet3 c)) (b2a_base64 rest)))).
Proof. reflexivity. Qed.

Lemma a2b_b2a (data : string) : a2b_base64 (b2a_base64 data) = Ok data.
Proof.
  unfold a2b_base64. induction data as [|a|a b|a b c rest IH] using string_ind3.
  - reflexivity.
  - change (b2a_base64 (String a EmptyString))
      with (String (table_b2a_base64 (sextet0 a))
              (String (table_b2a_base64
                         (N.shiftl (N.land (N_of_ascii a) 3) 4))
                 (String BASE64_PAD (String BASE64_PAD EmptyString)))).
    rewrite (loop_sextet 0 _ _ _ _ (sextet0_ok a)).
    rewrite (loop_sextet 1 _ _ _ _ (sextet1_tail_ok a)).
    rewrite (emit_byte _ a _ (byte0_tail_restored a)).
    reflexivity.
  - change (b2a_base64 (String a (String b EmptyString)))
      with (String (table_b2a_base64 (sextet0 a))
              (String (table_b2a_base64 (sextet1 a b))
                 (String (table_b2a_base64
                            (N.shiftl (N.land (N_of_ascii b) 15) 2))
                    (String BASE64_PAD EmptyString)))).
    rewrite (loop_sextet 0 _ _ _ _ (sextet0_ok a)).
    rewrite (loop_sextet 1 _ _ _ _ (sextet1_ok a b)).
    rewrite (loop_sextet 2 _ _ _ _ (sextet2_tail_ok b)).
    rewrite (proj1 (N.eqb_eq _ _) (leftchar1 a b)).
    rewrite (emit_byte _ a _ (byte0_restored a b)).
    rewrite (emit_byte _ b _ (byte1_tail_restored b)).
    reflexivity.
  - rewrite b2a_base64_group, loop_group, IH. reflexivity.
Qed.

Lemma table_b2a_is_ascii (n : N) : is_ascii (table_b2a_base64 n) = true.
Proof.
  unfold table_b2a_base64. generalize (N.to_nat n). intros k.
  do 65 (destruct k as [|k]; [reflexivity|]). reflexivity.
Qed.

Lemma b2a_base64_all_ascii (data : string) :
  all_ascii (b2a_base64 data) = true.
Proof.
  induction data as [|a|a b|a b c rest IH] using string_ind3.
  - reflexivity.
  - simpl. now rewrite !table_b2a_is_ascii.
  - simpl. now rewrite !table_b2a_is_ascii.
  - rewrite b2a_base64_group. simpl. now rewrite !table_b2a_is_ascii, IH.
Qed.

Lemma b2a_base64_length (data : string) :
  String.length (b2a_base64 data) = 4 * ((String.length data + 2) / 3).
Proof.
  induction data as [|a|a b|a b c rest IH] using string_ind3;
    try reflexivity.
  rewrite b2a_base64_group. cbn [String.length]. rewrite IH.
  replace (S (S (S (String.length rest))) + 2)
    with (String.length rest + 2 + 1 * 3) by lia.
  rewrite Nat.div_add by lia. lia.
Qed.

(** X14: an image file survives the round trip: decodeImage applied to the
    text that encodeImageIntoBase64 returns for a file, given as bytes or as
    str, writes to the target path exactly the bytes of that file and changes
    no other path; the text has 4 characters for every 3 bytes, rounded
    up. *)
Theorem image_round_trip (fs : FS) (source target content : string) :
  fs source = Some content ->
  exists text,
    encodeImageIntoBase64 source fs = Ok text /\
    String.length text = 4 * ((String.length content + 2) / 3) /\
    decodeImage (PyBytes text) target fs = Ok (fs_write target content fs) /\
    decodeImage (PyStr text) target fs = Ok (fs_write target content fs).
Proof.
  intros Hsource. exists (b64encode content).
  split; [unfold encodeImageIntoBase64; now rewrite Hsource|].
  split; [apply b2a_base64_length|].
  unfold decodeImage, b64decode, b64encode, _bytes_from_decode_data.
  rewrite b2a_base64_all_ascii, a2b_b2a. split; reflexivity.
Qed.

Lemma image_round_trip_witness :
  exists text,
    encodeImageIntoBase64 "scores.json" sample_fs = Ok text /\
    decodeImage (PyBytes text) "copy.json" sample_fs
    = Ok (fs_write "copy.json" "previous report" sample_fs).
Proof.
  destruct (image_round_trip sample_fs "scores.json" "copy.json"
              "previous report" eq_refl)
    as [text [Henc [_ [Hdec _]]]].
  exists text. split; [exact Henc | exact Hdec].
Defined.

Lemma a2b_loop_keep_base64 (s : string) :
  forall (quad_pos : nat) (leftchar : N) (pads : nat),
    a2b_loop quad_pos leftchar pads (keep_base64 s)
    = a2b_loop quad_pos leftchar pads s.
Proof.
  induction s as [|ch s IH]; intros quad_pos leftchar pads; [reflexivity|].
  cbn [keep_base64]. unfold base64_char.
  destruct (Ascii.eqb ch BASE64_PAD) eqn:Hpad.
  - cbn [orb a2b_loop]. rewrite Hpad.
    destruct ((2 <=? quad_pos) && (4 <=? quad_pos + S pads));
      [reflexivity | apply IH].
  - destruct (table_a2b_base64 ch) as [v|] eqn:Htable; cbn [orb a2b_loop].
    + rewrite Hpad, Htable.
      destruct quad_pos as [|[|[|quad_pos]]]; now rewrite IH.
    + rewrite Hpad, Htable. apply IH.
Qed.

(** X15: decodeImage skips every character that is neither in the base64
    alphabet nor the pad character: line breaks, blanks or any other such
    bytes inside the text change neither the outcome nor the file
    written. *)
Theorem decodeImage_skips_foreign_characters
    (text target : string) (fs : FS) :
  decodeImage (PyBytes (keep_base64 text)) target fs
  = decodeImage (PyBytes text) target fs.
Proof.
  unfold decodeImage, b64decode, _bytes_from_decode_data, a2b_base64.
  now rewrite a2b_loop_keep_base64.
Qed.

Lemma a2b_loop_alphabet (s : string) :
  all_alphabet s = true ->
  forall (quad_pos : nat) (leftchar : N) (pads : nat),
    quad_pos < 4 ->
    is_ok (a2b_loop quad_pos leftchar pads s)
    = ((quad_pos + String.length s) mod 4 =? 0).
Proof.
  induction s as [|ch s IH]; intros Hall quad_pos leftchar pads Hq.
  - cbn [a2b_loop String.length].
    rewrite Nat.add_0_r, (Nat.mod_small quad_pos 4 Hq).
    now destruct (quad_pos =? 0).
  - simpl in Hall.
    destruct (table_a2b_base64 ch) as [v|] eqn:Htable; [|discriminate Hall].
    assert (Hpad : Ascii.eqb ch BASE64_PAD = false).
    { destruct (Ascii.eqb_spec ch BASE64_PAD) as [->|_]; [|reflexivity].
      rewrite pad_not_in_alphabet in Htable. discriminate Htable. }
    assert (Hemit : forall byte r, is_ok (emit byte r) = is_ok r)
      by (intros byte [out|e]; reflexivity).
    cbn [a2b_loop String.length]. rewrite Hpad, Htable.
    replace (quad_pos + S (String.length s))
      with (S quad_pos + String.length s) by lia.
    destruct quad_pos as [|[|[|[|quad_pos]]]]; try lia.
    + now apply IH; [|lia].
    + rewrite Hemit. now apply IH; [|lia].
    + rewrite Hemit. now apply IH; [|lia].
    + rewrite Hemit, (IH Hall 0 _ _) by lia.
      replace (4 + String.length s) with (String.length s + 1 * 4) by lia.
      now rewrite Nat.Div0.mod_add.
Qed.

Lemma a2b_loop_raises_ValueError (s : string) :
  forall (quad_pos : nat) (leftchar : N) (pads : nat) (e : exn),
    a2b_loop quad_pos leftchar pads s = Raise e -> e = ValueError.
Proof.
  assert (Hemit : forall byte r e,
            emit byte r = Raise e -> r = Raise e).
  { intros byte [out|e'] e H; simpl in H; congruence. }
  induction s as [|ch s IH]; intros quad_pos leftchar pads e Hrun;
    cbn [a2b_loop] in Hrun.
  - destruct (quad_pos =? 0); congruence.
  - destruct (Ascii.eqb ch BASE64_PAD).
    + destruct ((2 <=? quad_pos) && (4 <=? quad_pos + S pads));
        [discriminate Hrun | now apply IH in Hrun].
    + destruct (table_a2b_base64 ch) as [v|]; [|now apply IH in Hrun].
      destruct quad_pos as [|[|[|quad_pos]]];
        try (apply Hemit in Hrun); now apply IH in Hrun.
Qed.

(** X16: a text of alphabet characters only, without padding, is accepted
    by decodeImage exactly when its length is a multiple of 4; otherwise
    ValueError is raised and no file is written.  A str that holds a
    non-ASCII character is rejected with ValueError as well. *)
Theorem decodeImage_rejects_unpadded
    (text target : string) (fs : FS) :
  (all_alphabet text = true ->
   (String.length text mod 4 = 0 ->
    exists imgdata,
      decodeImage (PyBytes text) target fs
      = Ok (fs_write target imgdata fs)) /\
   (String.length text mod 4 <> 0 ->
    decodeImage (PyBytes text) target fs = Raise ValueError)) /\
  (all_ascii text = false ->
   decodeImage (PyStr text) target fs = Raise ValueError).
Proof.
  split.
  - intros Hall.
    pose proof (a2b_loop_alphabet text Hall 0 0%N 0 (Nat.lt_0_succ 3)) as Hok.
    rewrite Nat.add_0_l in Hok.
    unfold decodeImage, b64decode, _bytes_from_decode_data, a2b_base64.
    split; intros Hlen.
    + rewrite Hlen in Hok.
      destruct (a2b_loop 0 0%N 0 text) as [imgdata|e]; [|discriminate Hok].
      now exists imgdata.
    + apply Nat.eqb_neq in Hlen. rewrite Hlen in Hok.
      destruct (a2b_loop 0 0%N 0 text) as [imgdata|e] eqn:Hrun;
        [discriminate Hok|].
      f_equal. exact (a2b_loop_raises_ValueError _ _ _ _ _ Hrun).
  - intros Hascii. unfold decodeImage, b64decode, _bytes_from_decode_data.
    now rewrite Hascii.
Qed.

Lemma decodeImage_rejects_unpadded_witness :
  decodeImage (PyBytes "Zm9vY") "image.jpg" sample_fs = Raise ValueError.
Proof.
  apply (proj2 (proj1 (decodeImage_rejects_unpadded "Zm9vY" "image.jpg"
                         sample_fs) eq_refl)).
  simpl. discriminate.
Defined.

(** ** Alignment of files and labels *)

Lemma combine_app_same_length {A B : Type} (l1 l2 : list A) (r1 r2 : list B) :
  length l1 = length r1 ->
  combine (l1 ++ l2) (r1 ++ r2) = combine l1 r1 ++ combine l2 r2.
Proof.
  revert r1. induction l1 as [|x l1 IH]; intros [|y r1]; simpl;
    try discriminate; [reflexivity|].
  intros H. f_equal. apply IH. lia.
Qed.

Lemma files_labels_aligned (split : Q) (tree : list (string * list string)) :
  forall start file c,
    In (file, c) (combine (files_from split start tree)
                          (labels_from split start tree)) ->
    start <= c /\
    In file (keras.validation_files split (class_files tree (c - start))).
Proof.
  unfold files_from, labels_from, class_files.
  induction tree as [|[name files] tree IH]; intros start file c Hin.
  - contradiction.
  - change (In (file, c)
              (combine
                 (keras.validation_files split files
                  ++ files_from split (S start) tree)
                 (repeat start (length (keras.validation_files split files))
                  ++ labels_from split (S start) tree))) in Hin.
    rewrite combine_app_same_length in Hin by now rewrite repeat_length.
    apply in_app_or in Hin. destruct Hin as [Hin|Hin].
    + pose proof (in_combine_l _ _ _ _ Hin) as Hfile.
      apply in_combine_r, repeat_spec in Hin. subst c.
      split; [lia|]. now rewrite Nat.sub_diag.
    + apply IH in Hin. destruct Hin as [Hle Hfile].
      split; [lia|].
      replace (c - start) with (S (c - S start)) by lia. exact Hfile.
Qed.

Lemma validation_files_fifth (files : list string) :
  keras.validation_files 0.20 files = firstn (length files / 5) files.
Proof.
  unfold keras.validation_files. f_equal.
  unfold Qnat, Qfloor, Qmult, inject_Z. simpl Qnum. simpl Qden.
  change (Z.pos (100 * 1)) with (20 * 5)%Z.
  rewrite Z.div_mul_cancel_l by lia.
  rewrite <- (Nat2Z.id (length files / 5)). f_equal.
  now rewrite Nat2Z.inj_div.
Qed.

(** X17: in the generator that _valid_generator stores, files and true
    labels are aligned position by position: the label at the position of a
    file is the index of the class directory that holds the file, and the
    file is one of the leading floor(n/5) files of that directory. *)
Theorem valid_generator_alignment
    (disk : Disk) (self : Evaluation) (tree : list (string * list string)) :
  disk (training_data (self_config self)) = Some tree ->
  exists generator,
    _valid_generator disk self
      = (set_valid_generator generator self, Ok tt) /\
    forall file c,
      In (file, c) (combine (keras.filepaths generator)
                            (keras.classes generator)) ->
      c < length tree /\
      In file (firstn (length (class_files tree c) / 5) (class_files tree c)).
Proof.
  intros Hdisk. eexists.
  split; [unfold _valid_generator; rewrite Hdisk; reflexivity|].
  intros file c Hin.
  split.
  - apply in_combine_r in Hin. rewrite flow_classes in Hin.
    pose proof (labels_from_bounds 0.20 0 tree) as Hb.
    rewrite Forall_forall in Hb. specialize (Hb c Hin). simpl in Hb. lia.
  - change (In (file, c) (combine (files_from 0.20 0 tree)
                                  (labels_from 0.20 0 tree))) in Hin.
    apply files_labels_aligned in Hin. destruct Hin as [_ Hfile].
    rewrite Nat.sub_0_r in Hfile.
    now rewrite validation_files_fifth in Hfile.
Qed.

Lemma valid_generator_alignment_witness :
  exists generator,
    _valid_generator sample_disk (__init__ sample_config)
      = (set_valid_generator generator (__init__ sample_config), Ok tt) /\
    nth_error (combine (keras.filepaths generator) (keras.classes generator))
              2
    = Some ("healthy.0"%string, 1).
Proof.
  destruct (valid_generator_alignment sample_disk (__init__ sample_config)
              sample_tree eq_refl) as [generator [Hrun _]].
  exists generator. split; [exact Hrun|].
  inversion Hrun. reflexivity.
Defined.

(** ** Macro aggregates *)

Lemma plain_total_combine (metric : ClassMetric -> Q)
    (class_labels : list string) (y_true y_pred : list nat) :
  let K := length class_labels in
  plain_total metric
    (combine class_labels (map (class_metric_at y_true y_pred) (seq 0 K)))
  = np.sum (map (fun c => metric (class_metric_at y_true y_pred c))
                (seq 0 K)).
Proof.
  intros K. unfold plain_total.
  rewrite <- (map_map snd metric).
  rewrite map_snd_combine by (now rewrite length_map, length_seq).
  now rewrite map_map.
Qed.

Lemma mean_map_seq (f : nat -> Q) (K : nat) :
  K <> 0 ->
  np.mean (map f (seq 0 K)) = Fin (np.sum (map f (seq 0 K)) / Qnat K)%Q.
Proof.
  intros HK. destruct K as [|K]; [congruence|].
  unfold np.mean.
  change (map f (seq 0 (S K))) with (f 0 :: map f (seq 1 K)).
  cbn [length]. now rewrite length_map, length_seq.
Qed.

(** X18: whenever some class has positive support, each macro aggregate
    that calculate_metrics stores is the plain mean of the stored per-class
    values: their sum divided by the number K of classes, a class without
    support counting like any other. *)
Theorem macro_aggregate_formula
    (self : Evaluation) (generator : keras.DirectoryIterator)
    (y_pred : list nat) :
  self_valid_generator self = Some generator ->
  NoDup (keys (keras.class_indices generator)) ->
  length (keras.classes generator) = length y_pred ->
  Exists (fun c => c < length (keras.class_indices generator))
         (keras.classes generator) ->
  let run := calculate_metrics y_pred self in
  exists d o,
    snd run = Ok tt /\
    self_class_metrics (fst run) = Some d /\
    self_overall_metrics (fst run) = Some o /\
    length d = length (keras.class_indices generator) /\
    macro_precision o = Fin (plain_total precision d / Qnat (length d))%Q /\
    macro_recall o = Fin (plain_total recall d / Qnat (length d))%Q /\
    macro_f1_score o = Fin (plain_total f1_score d / Qnat (length d))%Q.
Proof.
  intros Hg Hnd Hlen Hex run.
  set (y_true := keras.classes generator) in *.
  set (K := length (keras.class_indices generator)) in *.
  assert (HK : length (keys (keras.class_indices generator)) = K)
    by (unfold keys; apply length_map).
  pose proof (support_nonzero_of_exists y_true K Hex) as Hpos.
  assert (HK0 : K <> 0).
  { intros HK0. apply Hpos. rewrite HK0. reflexivity. }
  exists (combine (keys (keras.class_indices generator))
            (map (class_metric_at y_true y_pred) (seq 0 K))),
         (overall_of y_true y_pred K).
  pose proof (calculate_metrics_class_metrics self generator y_pred
                Hg Hnd Hlen) as Hd.
  subst run.
  rewrite (calculate_metrics_aligned self generator y_pred Hg Hlen) in *.
  cbv zeta in *. fold y_true in Hd |- *. fold K in Hd |- *.
  destruct (Nat.eqb_spec (list_sum (support_array y_true K)) 0) as [Hz|_];
    [contradiction|].
  split; [reflexivity|]. split; [exact Hd|]. split; [reflexivity|].
  assert (Hlength : length (combine (keys (keras.class_indices generator))
                              (map (class_metric_at y_true y_pred) (seq 0 K)))
                    = K).
  { rewrite length_combine, length_map, length_seq, HK. apply Nat.min_id. }
  split; [exact Hlength|].
  assert (Hpt : forall metric,
            plain_total metric
              (combine (keys (keras.class_indices generator))
                 (map (class_metric_at y_true y_pred) (seq 0 K)))
            = np.sum (map (fun c => metric (class_metric_at y_true y_pred c))
                          (seq 0 K))).
  { intros metric. rewrite <- HK. apply plain_total_combine. }
  rewrite Hlength, !Hpt. unfold overall_of.
  cbn [macro_precision macro_recall macro_f1_score].
  unfold precision_array, recall_array, f1_array.
  rewrite !mean_map_seq by exact HK0. repeat split.
Qed.

Lemma macro_aggregate_formula_witness :
  exists d o,
    self_class_metrics evaluated_sample = Some d /\
    self_overall_metrics evaluated_sample = Some o /\
    macro_precision o = Fin (plain_total precision d / Qnat (length d))%Q.
Proof.
  destruct (macro_aggregate_formula
              (sample_evaluation cat_dog_fish [0; 0; 1; 1; 2])
              (sample_generator cat_dog_fish [0; 0; 1; 1; 2])
              [0; 1; 1; 2; 2] eq_refl NoDup_cat_dog_fish eq_refl)
    as [d [o [_ [Hd [Ho [_ [Hm _]]]]]]].
  - apply Exists_cons_hd. simpl. lia.
  - exists d, o. split; [exact Hd|]. split; [exact Ho | exact Hm].
Defined.
